(** * Raider: the [Application] class (src/raider/application.py)

    A shallow embedding of [raider.application.Application]: construction
    from the loaded project configuration, [authenticate], and the
    persistence of the session file ([_userdata.hy]) and of the project
    file ([_project.hy]).

    Python objects that methods mutate are threaded explicitly: a method is
    an action on the pair of [self] and the world (the file system and the
    trace of calls made to collaborators); an exception leaves the state it
    was raised in.  Dictionaries are finite maps.  The Hy reader and
    evaluator are modelled on the fragment of the language that the
    persisted files use: symbols, string literals, dict literals and
    [setv]. *)

From Stdlib Require Import String Ascii List Lia.
From stdpp Require Import base option gmap strings list fin_maps.

Set Warnings "-register-all".
Local Open Scope string_scope.

(** ** Python values and exceptions *)

(** The exception classes that the modelled code can raise or has to tell
    apart.  [OtherError] stands for any class that is none of the named ones
    and derives from none of them. *)
Inductive PyExn : Type :=
| EOFError
| LexException
| TypeError
| KeyError (key : string)
| AttributeError (attr : string)
| OtherError (cls : string).

Definition is_EOFError (e : PyExn) : bool :=
  match e with EOFError => true | _ => false end.

(** Values of the literal fragment: [str] and [dict] with [str] keys. *)
Inductive PyValue : Type :=
| PyStr (s : string)
| PyDict (d : gmap string PyValue).

(** Python truthiness: the empty string and the empty dict are falsy. *)
Definition str_truthy (s : string) : bool :=
  match s with EmptyString => false | String _ _ => true end.

Definition py_truthy (v : PyValue) : bool :=
  match v with
  | PyStr s => str_truthy s
  | PyDict d => negb (bool_decide (d = ∅))
  end.

(** [x] of type [Optional[...]]: [None] is falsy. *)
Definition opt_truthy {A} (truthy : A -> bool) (x : option A) : bool :=
  match x with Some a => truthy a | None => false end.

(** A call that returns or raises, with no effect on the state. *)
Inductive Attempt (A : Type) : Type :=
| Ok (a : A)
| Fail (e : PyExn).
Arguments Ok {A} a.
Arguments Fail {A} e.

(** ** Hy models: what [hy.read] returns *)

Inductive HyObject : Type :=
| HySymbol (s : string)
| HyString (s : string)
| HyDict (items : list HyObject)
| HyExpression (items : list HyObject).

(** [if expr:] on a Hy model: an empty string and an empty sequence are
    falsy, as for the Python types the models derive from. *)
Definition hy_truthy (x : HyObject) : bool :=
  match x with
  | HySymbol s => str_truthy s
  | HyString s => str_truthy s
  | HyDict items => match items with [] => false | _ => true end
  | HyExpression items => match items with [] => false | _ => true end
  end.

(** *** The reader

    [hy.read stream] reads one form from the stream and raises [EOFError]
    when the stream is exhausted.  The stream is the text that is left to
    read.  The reader runs over the characters with a stack of the brackets
    that are open; it returns as soon as a form is complete at the top
    level and leaves the rest of the text in the stream.  The library is
    not part of the repository: this is a model of the reader on a fragment
    of the syntax, and a text that leaves the fragment gets the result
    [ReadUnmodelled], about which nothing is stated. *)

Inductive Bracket : Type := Paren | Brace.

Definition bracket_eqb (a b : Bracket) : bool :=
  match a, b with
  | Paren, Paren | Brace, Brace => true
  | _, _ => false
  end.

(** The characters of the fragment: whitespace, the two pairs of brackets,
    the double quote, the backslash, and the letters, digits and underscore
    of which symbols are made.  Every other character (the brackets of list
    literals, the quote characters, comments, keywords, the characters that
    the mangling of symbols rewrites, ...) is outside the fragment unless it
    stands inside a string literal. *)
Inductive CharClass : Type :=
| CSpace
| COpen (b : Bracket)
| CClose (b : Bracket)
| CQuote
| CBackslash
| CIdent
| COutside.

Definition is_ident_char (c : ascii) : bool :=
  let n := nat_of_ascii c in
  (Nat.leb 48 n && Nat.leb n 57) || (Nat.leb 65 n && Nat.leb n 90)
  || (Nat.leb 97 n && Nat.leb n 122) || Nat.eqb n 95.

Definition char_class (c : ascii) : CharClass :=
  if (c =? " ")%char then CSpace
  else if (c =? "010")%char then CSpace
  else if (c =? "009")%char then CSpace
  else if (c =? "013")%char then CSpace
  else if (c =? "(")%char then COpen Paren
  else if (c =? ")")%char then CClose Paren
  else if (c =? "{")%char then COpen Brace
  else if (c =? "}")%char then CClose Brace
  else if (c =? "034")%char then CQuote
  else if (c =? "\")%char then CBackslash
  else if is_ident_char c then CIdent
  else COutside.

Inductive LexState : Type :=
| Idle
| InString (buf : string)
| InEscape (buf : string)
| InSymbol (buf : string).

(** An open bracket with the forms read inside it so far, last first. *)
Definition Frame : Type := Bracket * list HyObject.

Definition close_form (b : Bracket) (items_rev : list HyObject) : HyObject :=
  match b with
  | Paren => HyExpression (rev items_rev)
  | Brace => HyDict (rev items_rev)
  end.

(** A completed form either is the result (no bracket is open) or joins the
    innermost open bracket. *)
Definition emit (x : HyObject) (stack : list Frame) : HyObject + list Frame :=
  match stack with
  | [] => inl x
  | (b, items_rev) :: stack' => inr ((b, x :: items_rev) :: stack')
  end.

Inductive ReadResult : Type :=
| ReadForm (x : HyObject) (rest : string)
| ReadRaise (e : PyExn)
| ReadUnmodelled.

Definition snoc (buf : string) (c : ascii) : string := buf +:+ String c "".

(** Inside a string literal a backslash escapes a double quote or a
    backslash; the other escapes of Python string literals are outside the
    fragment.  A text that ends
    inside a form is a premature end of input, an error of the lexer; an
    exhausted stream is [EOFError]. *)
Fixpoint read_chars (stack : list Frame) (st : LexState) (s : string) : ReadResult :=
  match s with
  | EmptyString =>
      match st, stack with
      | Idle, [] => ReadRaise EOFError
      | InSymbol buf, [] => ReadForm (HySymbol buf) ""
      | _, _ => ReadRaise LexException
      end
  | String c rest =>
      let idle (stack : list Frame) : ReadResult :=
        match char_class c with
        | CSpace => read_chars stack Idle rest
        | COpen b => read_chars ((b, []) :: stack) Idle rest
        | CClose b =>
            match stack with
            | [] => ReadRaise LexException
            | (b', items_rev) :: stack' =>
                if bracket_eqb b b' then
                  match emit (close_form b items_rev) stack' with
                  | inl x => ReadForm x rest
                  | inr stack'' => read_chars stack'' Idle rest
                  end
                else ReadRaise LexException
            end
        | CQuote => read_chars stack (InString "") rest
        | CIdent => read_chars stack (InSymbol (String c "")) rest
        | CBackslash | COutside => ReadUnmodelled
        end in
      match st with
      | Idle => idle stack
      | InString buf =>
          match char_class c with
          | CQuote =>
              match emit (HyString buf) stack with
              | inl x => ReadForm x rest
              | inr stack' => read_chars stack' Idle rest
              end
          | CBackslash => read_chars stack (InEscape buf) rest
          | _ => read_chars stack (InString (snoc buf c)) rest
          end
      | InEscape buf =>
          match char_class c with
          | CQuote | CBackslash => read_chars stack (InString (snoc buf c)) rest
          | _ => ReadUnmodelled
          end
      | InSymbol buf =>
          match char_class c with
          | CIdent => read_chars stack (InSymbol (snoc buf c)) rest
          | CBackslash | COutside => ReadUnmodelled
          | _ =>
              match emit (HySymbol buf) stack with
              | inl x => ReadForm x s
              | inr stack' => idle stack'
              end
          end
      end
  end.

Definition hy_read (stream : string) : ReadResult := read_chars [] Idle stream.


(** *** The evaluator

    [hy.eval expr] with no further argument evaluates in the namespace of
    the calling frame.  A namespace here holds the names that earlier
    evaluations of the same call of [load_session_file] bound.  The ambient
    Python environment (the frame's own locals, the module's globals, the
    builtins) is not modelled: a form that reads it, a call form other than
    [setv], and a dict display with an odd number of forms get the outcome
    [EvalUnmodelled], about which nothing is stated. *)

Inductive EvalResult (A : Type) : Type :=
| EvalOk (a : A)
| EvalRaise (e : PyExn)
| EvalUnmodelled.
Arguments EvalOk {A} a.
Arguments EvalRaise {A} e.
Arguments EvalUnmodelled {A}.

(** Building a dict from the evaluated forms of a display, key then value,
    left to right, a later key replacing an equal earlier one; a dict as a
    key is unhashable. *)
Fixpoint build_dict (vs : list PyValue) (d : gmap string PyValue) : EvalResult PyValue :=
  match vs with
  | [] => EvalOk (PyDict d)
  | [_] => EvalUnmodelled
  | PyStr k :: v :: vs' => build_dict vs' (<[k := v]> d)
  | PyDict _ :: _ :: _ => EvalRaise TypeError
  end.

Fixpoint eval_value (ns : gmap string PyValue) (x : HyObject) : EvalResult PyValue :=
  match x with
  | HyString s => EvalOk (PyStr s)
  | HySymbol name =>
      match ns !! name with
      | Some v => EvalOk v
      | None => EvalUnmodelled
      end
  | HyDict items =>
      let eval_items :=
        fix eval_items (l : list HyObject) : EvalResult (list PyValue) :=
          match l with
          | [] => EvalOk []
          | y :: l' =>
              match eval_value ns y with
              | EvalOk v =>
                  match eval_items l' with
                  | EvalOk vs => EvalOk (v :: vs)
                  | r => r
                  end
              | EvalRaise e => EvalRaise e
              | EvalUnmodelled => EvalUnmodelled
              end
          end in
      if Nat.even (length items) then
        match eval_items items with
        | EvalOk vs => build_dict vs ∅
        | EvalRaise e => EvalRaise e
        | EvalUnmodelled => EvalUnmodelled
        end
      else EvalUnmodelled
  | HyExpression _ => EvalUnmodelled
  end.

(** The local variables of [load_session_file]: rebinding one of them
    through the frame's namespace is outside the fragment. *)
Definition frame_locals : list string := ["self"; "filename"; "sess_file"; "expr"].

(** Names that are no plain variables: the keywords and constants of
    Python. *)
Definition reserved_names : list string :=
  ["None"; "True"; "False"; "and"; "as"; "assert"; "async"; "await"; "break";
   "class"; "continue"; "def"; "del"; "elif"; "else"; "except"; "finally";
   "for"; "from"; "global"; "if"; "import"; "in"; "is"; "lambda"; "nonlocal";
   "not"; "or"; "pass"; "raise"; "return"; "try"; "while"; "with"; "yield"].

Definition is_digit (c : ascii) : bool :=
  Nat.leb 48 (nat_of_ascii c) && Nat.leb (nat_of_ascii c) 57.

(** The names that [setv] binds within the fragment: symbols that are
    Python identifiers as they stand (a symbol that begins with a digit is
    no name), other than the reserved names and the frame's own locals. *)
Definition bindable (name : string) : bool :=
  match name with
  | EmptyString => false
  | String c _ =>
      negb (is_digit c)
      && negb (bool_decide (name ∈ reserved_names))
      && negb (bool_decide (name ∈ frame_locals))
  end.

(** [hy.eval expr]: [(setv name form)] binds [name] to the value of [form];
    any other form is evaluated for its value, which the caller drops. *)
Definition hy_eval (expr : HyObject) (ns : gmap string PyValue)
  : EvalResult (gmap string PyValue) :=
  match expr with
  | HyExpression [HySymbol head; HySymbol name; form] =>
      if String.eqb head "setv" && bindable name then
        match eval_value ns form with
        | EvalOk v => EvalOk (<[name := v]> ns)
        | EvalRaise e => EvalRaise e
        | EvalUnmodelled => EvalUnmodelled
        end
      else EvalUnmodelled
  | HyExpression _ => EvalUnmodelled
  | _ =>
      match eval_value ns expr with
      | EvalOk _ => EvalOk ns
      | EvalRaise e => EvalRaise e
      | EvalUnmodelled => EvalUnmodelled
      end
  end.

(** ** The serialization helper (raider.utils) *)

(** What [create_hy_expression] is given: a string, a mapping of strings, or
    a mapping of such mappings. *)
Inductive HyData : Type :=
| DataStr (s : string)
| DataMap (m : gmap string string)
| DataMap2 (m : gmap string (gmap string string)).

(** The Python value that a datum is. *)
Definition py_of_map (m : gmap string string) : PyValue := PyDict (PyStr <$> m).

Definition py_of_data (v : HyData) : PyValue :=
  match v with
  | DataStr s => PyStr s
  | DataMap m => py_of_map m
  | DataMap2 m => PyDict (py_of_map <$> m)
  end.

(** The double quote. *)
Definition dquote : string := String "034" "".

(** Modelled from the spec: inside a string literal the characters that
    would end or escape it, the double quote and the backslash, are
    escaped by a backslash (4.4). *)
Fixpoint escape (s : string) : string :=
  match s with
  | EmptyString => ""
  | String c rest =>
      match char_class c with
      | CQuote | CBackslash => String "\" (String c (escape rest))
      | _ => String c (escape rest)
      end
  end.

(** Modelled from the spec: a string is written as a quoted literal. *)
Definition hy_string (s : string) : string := dquote +:+ escape s +:+ dquote.

Definition concat_map {A} (f : A -> string) (l : list A) : string :=
  foldr (fun a acc => f a +:+ acc) "" l.

(** Modelled from the spec: a mapping is written as a bracketed literal of
    its entries, key then value, separated by whitespace (4.4, 6). *)
Definition hy_map_entry (kv : string * string) : string :=
  hy_string kv.1 +:+ " " +:+ hy_string kv.2 +:+ " ".

Definition hy_map (m : gmap string string) : string :=
  "{" +:+ concat_map hy_map_entry (map_to_list m) +:+ "}".

Definition hy_map2_entry (kv : string * gmap string string) : string :=
  hy_string kv.1 +:+ " " +:+ hy_map kv.2 +:+ " ".

Definition hy_map2 (m : gmap string (gmap string string)) : string :=
  "{" +:+ concat_map hy_map2_entry (map_to_list m) +:+ "}".

(** Modelled from the spec: the literal of a value (4.4). *)
Definition hy_literal (v : HyData) : string :=
  match v with
  | DataStr s => hy_string s
  | DataMap m => hy_map m
  | DataMap2 m => hy_map2 m
  end.

Definition newline : string := String "010" "".

(** Modelled from the spec: [create_hy_expression] of raider.utils is not
    among the sources.  The spec (4.4, 6) has it turn a string, a mapping of
    strings or a mapping of such mappings into the text of one
    self-contained, bracketed expression that assigns the literal to the
    name, expressions being separated by whitespace, and has it quote and
    escape every string so that it is read back identically. *)
Definition create_hy_expression (variable : string) (value : HyData) : string :=
  "(setv " +:+ variable +:+ " " +:+ hy_literal value +:+ ")" +:+ newline.

(** ** Collaborators' data *)

(** Modelled from the spec: [User] of raider.user is not among the sources.
    The spec (3) has a user record hold the username and the three session
    mappings, of strings to strings.  The mappings stand for the stores
    that [to_dict] turns into dicts. *)
Record User : Type := {
  username : string;
  cookies : gmap string string;
  headers : gmap string string;
  data : gmap string string
}.

(** Modelled from the spec: [UserStore] of raider.user is not among the
    sources.  The spec (2, 3) has it a collection of user records indexed by
    username, one of them designated the store's own default, the active
    user.  A reference to a user object that the store owns is the username
    under which the store holds it, so that what one holder of the
    reference changes is seen through every other. *)
Record UserStore : Type := {
  records : gmap string User;
  active : string
}.

(** Modelled from the spec: [users[key]] resolves a username to the user of
    that name and fails with a lookup error for a username the store does
    not hold (4.1, 8). *)
Definition UserStore_getitem (store : UserStore) (key : PyValue) : Attempt string :=
  match key with
  | PyStr k =>
      match records store !! k with
      | Some _ => Ok k
      | None => Fail (KeyError k)
      end
  | PyDict _ => Fail TypeError
  end.

(** Modelled from the spec: the global configuration keeps the name of the
    selected project (2, 6). *)
Record Config : Type := { active_project : string }.

(** Modelled from the spec: the objects for the authentication procedure
    and for the other procedures (2, 4.1) are built from loaded values by
    classes that are not among the sources; what they hold is never looked
    at here. *)
Record Authentication : Type := { flows : PyValue }.

Record Functions : Type := { function_flows : PyValue }.

(** ** The world and the actions on it *)

Inductive LogLevel : Type := DEBUG | CRITICAL.

(** What a run leaves behind besides files: the log records (level and
    format string), the forms that [hy.read] returned and that [hy.eval]
    was given, the runs of the authentication, and the texts written. *)
Inductive Event : Type :=
| Logged (level : LogLevel) (msg : string)
| HyRead (expr : HyObject)
| HyEval (expr : HyObject)
| RunAll (user : User) (config : Config)
| FileWrite (filename : string) (text : string).

Record World : Type := {
  files : gmap string string;
  selected_project : string;
  events : list Event
}.

Definition set_files (f : gmap string string -> gmap string string) (w : World) : World :=
  {| files := f (files w); selected_project := selected_project w; events := events w |}.

Definition set_selected_project (p : string) (w : World) : World :=
  {| files := files w; selected_project := p; events := events w |}.

Definition add_event (ev : Event) (w : World) : World :=
  {| files := files w; selected_project := selected_project w; events := events w ++ [ev] |}.

(** The outcome of an action from a state: it returns, it raises, or it
    leaves the modelled fragment. *)
Inductive Outcome (S A : Type) : Type :=
| Returns (a : A) (s : S)
| Raises (e : PyExn) (s : S)
| Unmodelled.
Arguments Returns {S A} a s.
Arguments Raises {S A} e s.
Arguments Unmodelled {S A}.

Definition Action (S A : Type) : Type := S -> Outcome S A.

Definition ret {S A} (a : A) : Action S A := fun s => Returns a s.

Definition raise {S A} (e : PyExn) : Action S A := fun s => Raises e s.

Definition unmodelled {S A} : Action S A := fun _ => Unmodelled.

Definition bind {S A B} (m : Action S A) (k : A -> Action S B) : Action S B :=
  fun s =>
    match m s with
    | Returns a s' => k a s'
    | Raises e s' => Raises e s'
    | Unmodelled => Unmodelled
    end.

Notation "x <- m ;; k" := (bind m (fun x => k))
  (at level 100, m at next level, right associativity).
Notation "m ;;; k" := (bind m (fun _ => k))
  (at level 100, right associativity).

Definition gets {S A} (f : S -> A) : Action S A := fun s => Returns (f s) s.

Definition modify {S} (f : S -> S) : Action S unit := fun s => Returns tt (f s).

Definition attempt {S A} (r : Attempt A) : Action S A :=
  match r with
  | Ok a => ret a
  | Fail e => raise e
  end.

(** An action on the world, run beside a component that it leaves alone:
    [self], or the namespace of an evaluation. *)
Definition in_world {X A} (m : Action World A) : Action (X * World) A :=
  fun '(x, w) =>
    match m w with
    | Returns a w' => Returns a (x, w')
    | Raises e w' => Raises e (x, w')
    | Unmodelled => Unmodelled
    end.

(** [try: body except EOFError: handler] *)
Definition try_except_EOFError {S A} (body handler : Action S A) : Action S A :=
  fun s =>
    match body s with
    | Raises e s' => if is_EOFError e then handler s' else Raises e s'
    | r => r
    end.

Definition trace (ev : Event) : Action World unit := modify (add_event ev).

Definition logging (level : LogLevel) (msg : string) : Action World unit :=
  trace (Logged level msg).

(** [os.path.exists] *)
Definition path_exists (filename : string) : Action World bool :=
  gets (fun w => bool_decide (is_Some (files w !! filename))).

(** [open(filename)]: the text to read. *)
Definition open_r (filename : string) : Action World string :=
  fun w =>
    match files w !! filename with
    | Some text => Returns text w
    | None => Raises (OtherError "FileNotFoundError") w
    end.

(** [open(filename, "w")] creates the file or truncates it. *)
Definition open_w (filename : string) : Action World unit :=
  modify (set_files (fun fs => <[filename := ""]> fs)).

(** [file.write(text)] on a file opened by [open_w]. *)
Definition file_write (filename text : string) : Action World unit :=
  trace (FileWrite filename text) ;;;
  modify (set_files (fun fs => <[filename := default "" (fs !! filename) +:+ text]> fs)).

(** [d[key]] and [d.get(key)] on the dict that [load_project] returns. *)
Definition getitem {S} (d : gmap string PyValue) (key : string) : Action S PyValue :=
  match d !! key with
  | Some v => ret v
  | None => raise (KeyError key)
  end.

(** Modelled from the spec: [Config()] reads the global configuration, and
    [write_config_file] persists which project is selected (6). *)
Definition Config_new : Action World Config :=
  gets (fun w => {| active_project := selected_project w |}).

(** Modelled from the spec: [write_config_file] makes the project of the
    configuration the selected one (6). *)
Definition write_config_file (config : Config) : Action World unit :=
  modify (set_selected_project (active_project config)).

(** ** The Application class *)

(** The attributes of an instance.  [active_user] is a reference to a user
    of [users].  [functions] is [None] for an instance on which the
    attribute was never assigned. *)
Record Application : Type := {
  config : Config;
  name : string;
  users : UserStore;
  active_user : string;
  authentication : Authentication;
  functions : option Functions;
  base_url : PyValue
}.

Definition set_active_user (ref : string) (self : Application) : Application :=
  {| config := config self; name := name self; users := users self;
     active_user := ref; authentication := authentication self;
     functions := functions self; base_url := base_url self |}.

(** The user object behind a reference takes a new state. *)
Definition update_user (ref : string) (user : User) (self : Application) : Application :=
  {| config := config self; name := name self;
     users := {| records := <[ref := user]> (records (users self));
                 active := active (users self) |};
     active_user := active_user self; authentication := authentication self;
     functions := functions self; base_url := base_url self |}.

(** [self.functions]: an attribute that was never assigned is an
    [AttributeError], the class having no attribute of that name. *)
Definition getattr_functions (self : Application) : Attempt Functions :=
  match functions self with
  | Some f => Ok f
  | None => Fail (AttributeError "functions")
  end.

Definition get_self : Action (Application * World) Application :=
  fun s => Returns s.1 s.

Definition modify_self (f : Application -> Application) : Action (Application * World) unit :=
  fun s => Returns tt (f s.1, s.2).

(** The user that [self.active_user] refers to. *)
Definition deref_active_user : Action (Application * World) User :=
  self <- get_self ;;
  match records (users self) !! active_user self with
  | Some user => ret user
  | None => unmodelled
  end.

(** The [while True] loop of [load_session_file], over the text that the
    file object has left and the namespace of the evaluation.  It ends by
    an exception only.  Every reading that returns a form shortens the
    text, so that a fuel above the length of the text is never used up. *)
Fixpoint session_loop (fuel : nat) (sess_file : string)
  : Action (gmap string PyValue * World) unit :=
  match fuel with
  | O => unmodelled
  | S fuel' =>
      match hy_read sess_file with
      | ReadRaise e => raise e
      | ReadUnmodelled => unmodelled
      | ReadForm expr sess_file' =>
          in_world (trace (HyRead expr)) ;;;
          if hy_truthy expr then
            in_world (logging DEBUG "expr = %s") ;;;
            in_world (trace (HyEval expr)) ;;;
            (fun '(ns, w) =>
               match hy_eval expr ns with
               | EvalOk ns' => Returns tt (ns', w)
               | EvalRaise e => Raises e (ns, w)
               | EvalUnmodelled => Unmodelled
               end) ;;;
            session_loop fuel' sess_file'
          else session_loop fuel' sess_file'
      end
  end.

(** The [try] statement of [load_session_file] on the text of the file. *)
Definition load_stream (text : string) : Action (gmap string PyValue * World) unit :=
  try_except_EOFError
    (session_loop (S (String.length text)) text)
    (in_world (logging DEBUG "Finished processing %s")).

(** The first lines of [__init__]: [self.config] and [self.name].  A name
    that is given (and is not empty) becomes the selected project. *)
Definition select_project (name : option string) : Action World (Config * string) :=
  config <- Config_new ;;
  match name with
  | Some (String _ _ as n) =>
      let config := {| active_project := n |} in
      write_config_file config ;;;
      ret (config, n)
  | _ => ret (config, active_project config)
  end.

(** The [if active_user:] statement of [__init__]: a loaded value that is
    truthy names the active user, otherwise the store's own default is
    taken. *)
Definition resolve_active_user (users : UserStore) (active_user : option PyValue)
  : Attempt string :=
  match active_user with
  | Some key =>
      if py_truthy key then UserStore_getitem users key else Ok (active users)
  | None => Ok (active users)
  end.

Section Methods.

(** Collaborators that are not among the sources, taken as they come:
    where a project keeps a file, how the configuration loads a project,
    how the collaborating objects are built from the loaded values, and
    what a run of the authentication makes of a user. *)
Variable get_project_file : string -> string -> string.
Variable load_project : Config -> option string -> Action World (gmap string PyValue).
Variable UserStore_new : PyValue -> Attempt UserStore.
Variable Authentication_new : PyValue -> Attempt Authentication.
Variable Functions_new : PyValue -> Attempt Functions.
Variable run_all : Authentication -> User -> Config -> Attempt User.

(** [Application.__init__] *)
Definition __init__ (name : option string) : Action World Application :=
  selected <- select_project name ;;
  let '(config, self_name) := selected in
  output <- load_project config name ;;
  raw_users <- getitem output "_users" ;;
  users <- attempt (UserStore_new raw_users) ;;
  let active_user := output !! "_active_user" in
  self_active_user <- attempt (resolve_active_user users active_user) ;;
  raw_authentication <- getitem output "_authentication" ;;
  authentication <- attempt (Authentication_new raw_authentication) ;;
  let functions := output !! "_functions" in
  self_functions <- (match functions with
                     | Some raw =>
                         if py_truthy raw
                         then f <- attempt (Functions_new raw) ;; ret (Some f)
                         else ret None
                     | None => ret None
                     end) ;;
  base_url <- getitem output "_base_url" ;;
  ret {| config := config; name := self_name; users := users;
         active_user := self_active_user; authentication := authentication;
         functions := self_functions; base_url := base_url |}.

(** [Application.write_project_file] *)
Definition write_project_file : Action (Application * World) unit :=
  self <- get_self ;;
  let filename := get_project_file (name self) "_project.hy" in
  let value := "" in
  in_world (open_w filename) ;;;
  user <- deref_active_user ;;
  let value := value +:+ create_hy_expression "_active_user" (DataStr (username user)) in
  in_world (logging DEBUG "Writing to session file %s") ;;;
  in_world (logging DEBUG "value = %s") ;;;
  in_world (file_write filename value).

(** [Application.authenticate] *)
Definition authenticate (username : option string) : Action (Application * World) unit :=
  (match username with
   | Some (String _ _ as u) =>
       self <- get_self ;;
       ref <- attempt (UserStore_getitem (users self) (PyStr u)) ;;
       modify_self (set_active_user ref)
   | _ => ret tt
   end) ;;;
  self <- get_self ;;
  user <- deref_active_user ;;
  in_world (trace (RunAll user (config self))) ;;;
  user' <- attempt (run_all (authentication self) user (config self)) ;;
  modify_self (update_user (active_user self) user') ;;;
  write_project_file.

(** [Application.load_session_file] *)
Definition load_session_file : Action (Application * World) unit :=
  self <- get_self ;;
  let filename := get_project_file (name self) "_userdata.hy" in
  in_world (logging DEBUG "Loading session file %s") ;;;
  exists_ <- in_world (path_exists filename) ;;
  if negb exists_ then
    in_world (logging CRITICAL "Configuration file doesn't exist")
  else
    sess_file <- in_world (open_r filename) ;;
    (fun '(self, w) =>
       match load_stream sess_file (∅, w) with
       | Returns _ (_, w') => Returns tt (self, w')
       | Raises e (_, w') => Raises e (self, w')
       | Unmodelled => Unmodelled
       end).

(** The [for] loop of [write_session_file]: every user's three mappings
    under the username.  The usernames that the store iterates over are
    those it holds a user for, in the order of the store's listing. *)
Definition collect_sessions (users : UserStore)
  : gmap string (gmap string string) * gmap string (gmap string string)
    * gmap string (gmap string string) :=
  foldl (fun '(c, h, d) '(username, user) =>
           (<[username := cookies user]> c,
            <[username := headers user]> h,
            <[username := data user]> d))
        (∅, ∅, ∅) (map_to_list (records users)).

(** [Application.write_session_file] *)
Definition write_session_file : Action (Application * World) unit :=
  load_session_file ;;;
  self <- get_self ;;
  let filename := get_project_file (name self) "_userdata.hy" in
  let value := "" in
  in_world (open_w filename) ;;;
  let '(cookies, headers, data) := collect_sessions (users self) in
  let value := value +:+ create_hy_expression "_cookies" (DataMap2 cookies) in
  let value := value +:+ create_hy_expression "_headers" (DataMap2 headers) in
  let value := value +:+ create_hy_expression "_data" (DataMap2 data) in
  in_world (logging DEBUG "Writing to session file %s") ;;;
  in_world (logging DEBUG "value = %s") ;;;
  in_world (file_write filename value).

End Methods.

(** * The vocabulary of the statements *)

(** ** What the reader makes of the written text *)

(** What the reader does with a form that is complete. *)
Definition resume (x : HyObject) (stack : list Frame) (rest : string) : ReadResult :=
  match emit x stack with
  | inl y => ReadForm y rest
  | inr stack' => read_chars stack' Idle rest
  end.

(** The forms that the reader returns for the written data: a string for a
    string, a dict of the keys and values, in the order of the listing, for
    a mapping. *)
Definition map_forms (l : list (string * string)) : list HyObject :=
  flat_map (fun kv => [HyString kv.1; HyString kv.2]) l.

Definition form_of_map (m : gmap string string) : HyObject :=
  HyDict (map_forms (map_to_list m)).

Definition map2_forms (l : list (string * gmap string string)) : list HyObject :=
  flat_map (fun kv => [HyString kv.1; form_of_map kv.2]) l.

Definition form_of_data (v : HyData) : HyObject :=
  match v with
  | DataStr s => HyString s
  | DataMap m => form_of_map m
  | DataMap2 m => HyDict (map2_forms (map_to_list m))
  end.

(** A name that the lexer reads as one symbol. *)
Definition symbol_char (c : ascii) : bool :=
  match char_class c with
  | CIdent => true
  | _ => false
  end.

Fixpoint symbol_chars (s : string) : bool :=
  match s with
  | EmptyString => true
  | String c t => symbol_char c && symbol_chars t
  end.

Definition symbol_name (s : string) : bool :=
  match s with
  | EmptyString => false
  | String _ _ => symbol_chars s
  end.

(** The expression that assigns a value to a name. *)
Definition setv_form (variable : string) (value : HyData) : HyObject :=
  HyExpression [HySymbol "setv"; HySymbol variable; form_of_data value].

(** The evaluation of the forms of a dict display, as [eval_value] runs
    it. *)
Definition eval_items (ns : gmap string PyValue)
  : list HyObject -> EvalResult (list PyValue) :=
  fix eval_items (l : list HyObject) : EvalResult (list PyValue) :=
    match l with
    | [] => EvalOk []
    | y :: l' =>
        match eval_value ns y with
        | EvalOk v =>
            match eval_items l' with
            | EvalOk vs => EvalOk (v :: vs)
            | r => r
            end
        | EvalRaise e => EvalRaise e
        | EvalUnmodelled => EvalUnmodelled
        end
    end.

(** ** Loading: files, positions and events *)

(** The two files of a project. *)
Definition session_file (get_project_file : string -> string -> string)
    (self : Application) : string :=
  get_project_file (name self) "_userdata.hy".

Definition project_file (get_project_file : string -> string -> string)
    (self : Application) : string :=
  get_project_file (name self) "_project.hy".

(** The world after the first log record of [load_session_file]. *)
Definition loading (w : World) : World :=
  add_event (Logged DEBUG "Loading session file %s") w.

(** The loop gets from one position of the file to another by turns that
    read a form and, when the form is truthy, evaluate it, none of them
    raising. *)
Inductive session_steps
  : string -> gmap string PyValue -> string -> gmap string PyValue -> Prop :=
| steps_here text ns : session_steps text ns text ns
| steps_skip text expr rest ns text' ns' :
    hy_read text = ReadForm expr rest ->
    hy_truthy expr = false ->
    session_steps rest ns text' ns' ->
    session_steps text ns text' ns'
| steps_eval text expr rest ns ns1 text' ns' :
    hy_read text = ReadForm expr rest ->
    hy_truthy expr = true ->
    hy_eval expr ns = EvalOk ns1 ->
    session_steps rest ns1 text' ns' ->
    session_steps text ns text' ns'.

(** The events of a run of the loop: a reading, and right after the reading
    of a truthy form its log record and its evaluation, before the next
    reading. *)
Inductive read_eval_trace : list Event -> Prop :=
| trace_end : read_eval_trace []
| trace_skip expr tr :
    hy_truthy expr = false ->
    read_eval_trace tr ->
    read_eval_trace (HyRead expr :: tr)
| trace_eval expr tr :
    hy_truthy expr = true ->
    read_eval_trace tr ->
    read_eval_trace (HyRead expr :: Logged DEBUG "expr = %s" :: HyEval expr :: tr).

(** The state in which an action returned or raised. *)
Definition final_state {S A} (r : Outcome S A) : option S :=
  match r with
  | Returns _ s | Raises _ s => Some s
  | Unmodelled => None
  end.

(** The log record of the [except EOFError] clause. *)
Definition finished : Event := Logged DEBUG "Finished processing %s".

(** The text of the session file of a store. *)
Definition session_text (users : UserStore) : string :=
  create_hy_expression "_cookies" (DataMap2 (cookies <$> records users))
  +:+ create_hy_expression "_headers" (DataMap2 (headers <$> records users))
  +:+ create_hy_expression "_data" (DataMap2 (data <$> records users)).

(** What the evaluation of a session file binds: the three names, each to
    the mapping from usernames to that kind of mapping. *)
Definition session_bindings (users : UserStore) : gmap string PyValue :=
  <["_data" := py_of_data (DataMap2 (data <$> records users))]>
    (<["_headers" := py_of_data (DataMap2 (headers <$> records users))]>
       (<["_cookies" := py_of_data (DataMap2 (cookies <$> records users))]> ∅)).

(** The entry of a user in the dict bound to a name. *)
Definition session_entry (ns : gmap string PyValue) (variable username : string)
  : option PyValue :=
  match ns !! variable with
  | Some (PyDict d) => d !! username
  | _ => None
  end.

(** The events of one turn of the loop on a truthy form. *)
Definition turn (expr : HyObject) (w : World) : World :=
  add_event (HyEval expr)
    (add_event (Logged DEBUG "expr = %s") (add_event (HyRead expr) w)).

(** The three expressions of the session file of a store. *)
Definition session_forms (users : UserStore) : list HyObject :=
  [setv_form "_cookies" (DataMap2 (cookies <$> records users));
   setv_form "_headers" (DataMap2 (headers <$> records users));
   setv_form "_data" (DataMap2 (data <$> records users))].

(** The world after the load of the session file of a store: a turn for
    each of the three expressions, then the end of the stream. *)
Definition loaded (users : UserStore) (w : World) : World :=
  add_event finished (foldl (fun w expr => turn expr w) w (session_forms users)).

(** The forms that were given to [hy.eval], in order. *)
Definition evaluated (evs : list Event) : list HyObject :=
  omap (fun ev => match ev with HyEval expr => Some expr | _ => None end) evs.

(** The keys that [__init__] reads with [output[key]]. *)
Definition required_keys : list string := ["_users"; "_authentication"; "_base_url"].

(** ** The project file *)

(** The text of the project file for an active user. *)
Definition project_text (user : User) : string :=
  create_hy_expression "_active_user" (DataStr (username user)).

(** The world after [write_project_file]. *)
Definition project_written (get_project_file : string -> string -> string)
    (self : Application) (user : User) (w : World) : World :=
  {| files := <[project_file get_project_file self := project_text user]> (files w);
     selected_project := selected_project w;
     events := events w ++ [Logged DEBUG "Writing to session file %s";
                            Logged DEBUG "value = %s";
                            FileWrite (project_file get_project_file self)
                                      (project_text user)] |}.

(** The runs of the authentication: the user and the configuration that the
    runner was given. *)
Definition runs (evs : list Event) : list (User * Config) :=
  omap (fun ev => match ev with RunAll user cfg => Some (user, cfg) | _ => None end) evs.

(** ** An example project *)

(** The files of a project lie under the name of the project. *)
Definition demo_get_project_file (project filename : string) : string :=
  project +:+ "/" +:+ filename.

Definition demo_user (n : string) (c : gmap string string) : User :=
  {| username := n; cookies := c; headers := ∅; data := ∅ |}.

(** A store in which alice holds a cookie. *)
Definition demo_store : UserStore :=
  {| records := {[ "alice" := demo_user "alice" {[ "sid" := "abc" ]};
                   "bob" := demo_user "bob" ∅ ]};
     active := "bob" |}.

(** The store of a fresh instance for the same users. *)
Definition fresh_store : UserStore :=
  {| records := {[ "alice" := demo_user "alice" ∅; "bob" := demo_user "bob" ∅ ]};
     active := "bob" |}.

(** An instance for the project [demo] with bob the active user, and a
    world without files. *)
Definition demo_app (store : UserStore) : Application :=
  {| config := {| active_project := "demo" |}; name := "demo"; users := store;
     active_user := "bob"; authentication := {| flows := PyStr "login" |};
     functions := None; base_url := PyStr "https://example.test" |}.

Definition demo_world : World :=
  {| files := ∅; selected_project := "demo"; events := [] |}.

(** A run of the authentication that leaves a session cookie. *)
Definition demo_run_all (auth : Authentication) (user : User) (cfg : Config) : Attempt User :=
  Ok {| username := username user; cookies := <["session" := "token"]> (cookies user);
        headers := headers user; data := data user |}.

(** A configuration loader that returns a given dict. *)
Definition demo_load_project (output : gmap string PyValue) (cfg : Config)
    (name : option string) : Action World (gmap string PyValue) :=
  ret output.

(** A store built from a dict of usernames, with a given default. *)
Definition demo_UserStore_new (default : string) (raw : PyValue) : Attempt UserStore :=
  match raw with
  | PyDict d =>
      Ok {| records := map_imap (fun k _ => Some (demo_user k ∅)) d; active := default |}
  | PyStr _ => Fail TypeError
  end.

Definition demo_Authentication_new (raw : PyValue) : Attempt Authentication :=
  Ok {| flows := raw |}.

Definition demo_Functions_new (raw : PyValue) : Attempt Functions :=
  Ok {| function_flows := raw |}.

Definition demo_users : PyValue :=
  PyDict {[ "alice" := PyStr "secret"; "bob" := PyStr "hunter2" ]}.

(** A loaded configuration that names alice the active user. *)
Definition demo_output : gmap string PyValue :=
  {[ "_users" := demo_users; "_authentication" := PyStr "login";
     "_base_url" := PyStr "https://example.test"; "_active_user" := PyStr "alice" ]}.

(** The same without the base URL. *)
Definition demo_output_no_url : gmap string PyValue :=
  {[ "_users" := demo_users; "_authentication" := PyStr "login" ]}.

(** A loaded configuration whose active-user value is the empty string,
    for a store that holds a user of that name. *)
Definition empty_name_output : gmap string PyValue :=
  {[ "_users" := PyDict {[ "" := PyStr "secret"; "bob" := PyStr "hunter2" ]};
     "_authentication" := PyStr "login";
     "_base_url" := PyStr "https://example.test"; "_active_user" := PyStr "" ]}.

(** A session file that binds a name of its own. *)
Definition other_text : string := create_hy_expression "_other" (DataStr "x").

Definition other_world : World :=
  {| files := {[ "demo/_userdata.hy" := other_text ]};
     selected_project := "demo"; events := [] |}.

(** A session file with a closing bracket too many after its first
    expression. *)
Definition broken_text : string :=
  create_hy_expression "_cookies" (DataMap ∅) +:+ ")".

Definition broken_world : World :=
  {| files := {[ "demo/_userdata.hy" := broken_text ]};
     selected_project := "demo"; events := [] |}.

(** The world in which the example store's session file was written. *)
Definition written_world : World :=
  {| files := {[ "demo/_userdata.hy" := session_text demo_store ]};
     selected_project := "demo"; events := [] |}.

(** * Reading back and evaluating what the helper writes *)

Lemma append_cons (c : ascii) (a b : string) : String c a +:+ b = String c (a +:+ b).
Proof. reflexivity. Qed.

Lemma append_nil_l (a : string) : "" +:+ a = a.
Proof. reflexivity. Qed.

Lemma append_assoc (a b c : string) : (a +:+ b) +:+ c = a +:+ (b +:+ c).
Proof.
  induction a as [|x a IH]; [reflexivity|].
  rewrite !append_cons. by f_equal.
Qed.

Lemma append_nil_r (a : string) : a +:+ "" = a.
Proof.
  induction a as [|x a IH]; [reflexivity|].
  rewrite append_cons. by f_equal.
Qed.

Lemma snoc_append (buf : string) (c : ascii) (t : string) :
  snoc buf c +:+ t = buf +:+ String c t.
Proof. unfold snoc. by rewrite append_assoc. Qed.

(** Texts are brought to the form of one character after the other. *)
Ltac norm_text :=
  repeat first [ rewrite append_assoc | rewrite append_cons | rewrite append_nil_l ].

Lemma resume_inner (x : HyObject) (b : Bracket) (items : list HyObject)
    (stack : list Frame) (rest : string) :
  resume x ((b, items) :: stack) rest = read_chars ((b, x :: items) :: stack) Idle rest.
Proof. reflexivity. Qed.

Lemma read_string_body (t buf : string) (stack : list Frame) (rest : string) :
  read_chars stack (InString buf) (escape t +:+ dquote +:+ rest)
  = resume (HyString (buf +:+ t)) stack rest.
Proof.
  revert buf. induction t as [|c t IH]; intros buf.
  - unfold dquote. norm_text. simpl. by rewrite append_nil_r.
  - simpl escape. destruct (char_class c) eqn:Hc; norm_text; simpl; rewrite ?Hc;
      rewrite IH, snoc_append; reflexivity.
Qed.

Lemma read_hy_string (t : string) (stack : list Frame) (rest : string) :
  read_chars stack Idle (hy_string t +:+ rest) = resume (HyString t) stack rest.
Proof.
  unfold hy_string. unfold dquote at 1. norm_text. simpl.
  apply (read_string_body t "").
Qed.

Lemma read_space (stack : list Frame) (rest : string) :
  read_chars stack Idle (String " " rest) = read_chars stack Idle rest.
Proof. reflexivity. Qed.

Lemma read_map_entries (l : list (string * string)) (items : list HyObject)
    (stack : list Frame) (rest : string) :
  read_chars ((Brace, items) :: stack) Idle (concat_map hy_map_entry l +:+ rest)
  = read_chars ((Brace, (rev (map_forms l) ++ items)%list) :: stack) Idle rest.
Proof.
  revert items. induction l as [|[k v] l IH]; intros items; [reflexivity|].
  simpl concat_map. unfold hy_map_entry at 1. simpl fst; simpl snd.
  rewrite !append_assoc.
  rewrite read_hy_string, resume_inner. norm_text. rewrite read_space.
  rewrite read_hy_string, resume_inner. norm_text. rewrite read_space.
  rewrite IH. simpl. by rewrite <- !app_assoc.
Qed.

Lemma read_close_brace (items : list HyObject) (stack : list Frame) (rest : string) :
  read_chars ((Brace, items) :: stack) Idle (String "}" rest)
  = resume (HyDict (rev items)) stack rest.
Proof. reflexivity. Qed.

Lemma read_hy_map (m : gmap string string) (stack : list Frame) (rest : string) :
  read_chars stack Idle (hy_map m +:+ rest) = resume (form_of_map m) stack rest.
Proof.
  unfold hy_map. norm_text. simpl.
  rewrite read_map_entries, read_close_brace.
  by rewrite app_nil_r, rev_involutive.
Qed.

Lemma read_map2_entries (l : list (string * gmap string string))
    (items : list HyObject) (stack : list Frame) (rest : string) :
  read_chars ((Brace, items) :: stack) Idle (concat_map hy_map2_entry l +:+ rest)
  = read_chars ((Brace, (rev (map2_forms l) ++ items)%list) :: stack) Idle rest.
Proof.
  revert items. induction l as [|[k v] l IH]; intros items; [reflexivity|].
  simpl concat_map. unfold hy_map2_entry at 1. simpl fst; simpl snd.
  rewrite !append_assoc.
  rewrite read_hy_string, resume_inner. norm_text. rewrite read_space.
  rewrite read_hy_map, resume_inner. norm_text. rewrite read_space.
  rewrite IH. simpl. by rewrite <- !app_assoc.
Qed.

Lemma read_hy_literal (v : HyData) (stack : list Frame) (rest : string) :
  read_chars stack Idle (hy_literal v +:+ rest) = resume (form_of_data v) stack rest.
Proof.
  destruct v as [s|m|m]; simpl.
  - apply read_hy_string.
  - apply read_hy_map.
  - unfold hy_map2. norm_text. simpl.
    rewrite read_map2_entries, read_close_brace.
    by rewrite app_nil_r, rev_involutive.
Qed.

Lemma read_symbol_tail (t buf : string) (b : Bracket) (items : list HyObject)
    (stack : list Frame) (rest : string) :
  symbol_chars t = true ->
  read_chars ((b, items) :: stack) (InSymbol buf) (t +:+ String " " rest)
  = read_chars ((b, HySymbol (buf +:+ t) :: items) :: stack) Idle rest.
Proof.
  revert buf. induction t as [|c t IH]; intros buf Ht.
  - norm_text. simpl. by rewrite append_nil_r.
  - simpl in Ht. apply andb_prop in Ht as [Hc Ht]. norm_text.
    unfold symbol_char in Hc. simpl.
    destruct (char_class c); try discriminate; rewrite IH, ?snoc_append; done.
Qed.

Lemma read_symbol (name : string) (b : Bracket) (items : list HyObject)
    (stack : list Frame) (rest : string) :
  symbol_name name = true ->
  read_chars ((b, items) :: stack) Idle (name +:+ String " " rest)
  = read_chars ((b, HySymbol name :: items) :: stack) Idle rest.
Proof.
  destruct name as [|c t]; [discriminate|]. simpl. intros Ht.
  apply andb_prop in Ht as [Hc Ht]. norm_text.
  unfold symbol_char in Hc. simpl.
  destruct (char_class c); try discriminate; by rewrite read_symbol_tail.
Qed.

(** The reader returns the expression that [create_hy_expression] wrote,
    and leaves the newline and what follows in the stream. *)
Lemma read_create_hy_expression (variable : string) (value : HyData) (rest : string) :
  symbol_name variable = true ->
  hy_read (create_hy_expression variable value +:+ rest)
  = ReadForm (setv_form variable value) (newline +:+ rest).
Proof.
  intros Hvar. unfold hy_read, create_hy_expression. rewrite !append_assoc.
  change (read_chars [] Idle ("(setv " +:+ ?s))
    with (read_chars [(Paren, [])] Idle ("setv" +:+ String " " s)).
  rewrite (read_symbol "setv") by reflexivity.
  change (" " +:+ ?s) with (String " " s).
  rewrite read_symbol by assumption.
  rewrite read_hy_literal, resume_inner. reflexivity.
Qed.

Lemma read_newline (rest : string) : hy_read (newline +:+ rest) = hy_read rest.
Proof. reflexivity. Qed.

Lemma eval_items_cons (ns : gmap string PyValue) (y : HyObject) (l : list HyObject) :
  eval_items ns (y :: l)
  = match eval_value ns y with
    | EvalOk v =>
        match eval_items ns l with
        | EvalOk vs => EvalOk (v :: vs)
        | r => r
        end
    | EvalRaise e => EvalRaise e
    | EvalUnmodelled => EvalUnmodelled
    end.
Proof. reflexivity. Qed.

Lemma eval_value_dict (ns : gmap string PyValue) (items : list HyObject) :
  eval_value ns (HyDict items)
  = if Nat.even (length items) then
      match eval_items ns items with
      | EvalOk vs => build_dict vs ∅
      | EvalRaise e => EvalRaise e
      | EvalUnmodelled => EvalUnmodelled
      end
    else EvalUnmodelled.
Proof. reflexivity. Qed.

(** The entries of a display, evaluated: a key and a value each. *)
Lemma eval_entries {A} (ns : gmap string PyValue) (form : A -> HyObject)
    (val : A -> PyValue) (l : list (string * A)) :
  (forall kv, kv ∈ l -> eval_value ns (form kv.2) = EvalOk (val kv.2)) ->
  Nat.even (length (flat_map (fun kv => [HyString kv.1; form kv.2]) l)) = true
  /\ eval_items ns (flat_map (fun kv => [HyString kv.1; form kv.2]) l)
     = EvalOk (flat_map (fun kv => [PyStr kv.1; val kv.2]) l).
Proof.
  induction l as [|[k a] l IH]; intros Hl; [done|].
  destruct IH as [IH1 IH2].
  { intros kv Hkv. apply Hl. by right. }
  split; [exact IH1|].
  pose proof (Hl (k, a) ltac:(left)) as Ha. simpl in Ha.
  change (flat_map (λ kv : string * A, [HyString kv.1; form kv.2]) ((k, a) :: l))
    with (HyString k :: form a :: flat_map (λ kv : string * A, [HyString kv.1; form kv.2]) l).
  rewrite !eval_items_cons. cbn [eval_value].
  by rewrite Ha, IH2.
Qed.

Lemma build_dict_entries {A} (val : A -> PyValue) (l : list (string * A))
    (d : gmap string PyValue) :
  build_dict (flat_map (fun kv => [PyStr kv.1; val kv.2]) l) d
  = EvalOk (PyDict (foldl (fun d kv => <[kv.1 := val kv.2]> d) d l)).
Proof.
  revert d. induction l as [|[k a] l IH]; intros d; [done|].
  cbn [flat_map app build_dict fst snd]. by rewrite IH.
Qed.

(** Inserting the entries of a listing without repeated keys, one after the
    other, gives the map of the listing over what was there. *)
Lemma foldl_insert_union {A B} (f : A -> B) (l : list (string * A)) (d : gmap string B) :
  NoDup l.*1 ->
  foldl (fun d kv => <[kv.1 := f kv.2]> d) d l
  = list_to_map (prod_map id f <$> l) ∪ d.
Proof.
  revert d. induction l as [|[k a] l IH]; intros d Hl.
  - simpl. by rewrite (left_id_L ∅ (∪)).
  - rewrite fmap_cons in Hl. apply NoDup_cons in Hl as [Hk Hl].
    rewrite fmap_cons. cbn [foldl list_to_map foldr prod_map fst snd id].
    rewrite IH by done.
    rewrite <- insert_union_l. symmetry. apply insert_union_r.
    apply not_elem_of_list_to_map_1.
    rewrite <- list_fmap_compose. exact Hk.
Qed.

Lemma foldl_insert_map_to_list {A B} (f : A -> B) (m : gmap string A) :
  foldl (fun d kv => <[kv.1 := f kv.2]> d) ∅ (map_to_list m) = f <$> m.
Proof.
  rewrite foldl_insert_union by apply NoDup_fst_map_to_list.
  rewrite (right_id_L ∅ (∪)).
  by rewrite <- map_to_list_fmap, list_to_map_to_list.
Qed.

Lemma eval_form_of_map (ns : gmap string PyValue) (m : gmap string string) :
  eval_value ns (form_of_map m) = EvalOk (py_of_map m).
Proof.
  unfold form_of_map, map_forms. rewrite eval_value_dict.
  destruct (eval_entries ns HyString PyStr (map_to_list m)) as [-> ->]; [done|].
  rewrite build_dict_entries. unfold py_of_map.
  by rewrite foldl_insert_map_to_list.
Qed.

Lemma eval_form_of_data (ns : gmap string PyValue) (v : HyData) :
  eval_value ns (form_of_data v) = EvalOk (py_of_data v).
Proof.
  destruct v as [s|m|m]; [done | apply eval_form_of_map |].
  unfold form_of_data, py_of_data, map2_forms. rewrite eval_value_dict.
  destruct (eval_entries ns form_of_map py_of_map (map_to_list m)) as [-> ->].
  { intros. apply eval_form_of_map. }
  rewrite build_dict_entries. by rewrite foldl_insert_map_to_list.
Qed.

(** [hy.eval] of the expression that was written binds the name to the
    value that was given to [create_hy_expression]. *)
Lemma eval_setv_form (variable : string) (value : HyData) (ns : gmap string PyValue) :
  bindable variable = true ->
  hy_eval (setv_form variable value) ns = EvalOk (<[variable := py_of_data value]> ns).
Proof.
  intros Hvar. unfold hy_eval, setv_form. rewrite Hvar. simpl.
  by rewrite eval_form_of_data.
Qed.


(** * The reader consumes what it returns, and the loop of the load *)

Lemma read_chars_shrinks (s : string) :
  forall stack st x rest,
    read_chars stack st s = ReadForm x rest ->
    String.length rest <= String.length s
    /\ (match st with
        | InSymbol _ => True
        | _ => String.length rest < String.length s
        end).
Proof.
  induction s as [|c s IH]; intros stack st x rest H.
  - destruct st, stack; simpl in H; try discriminate.
    inversion H; subst. simpl. lia.
  - assert (Hrec : forall stack' st', read_chars stack' st' s = ReadForm x rest ->
                     String.length rest < String.length (String c s)).
    { intros stack' st' H'. apply IH in H' as [H' _]. simpl. lia. }
    assert (Hidle : forall stack',
               match char_class c with
               | CSpace => read_chars stack' Idle s
               | COpen b => read_chars ((b, []) :: stack') Idle s
               | CClose b =>
                   match stack' with
                   | [] => ReadRaise LexException
                   | (b', items_rev) :: stack'' =>
                       if bracket_eqb b b' then
                         match emit (close_form b items_rev) stack'' with
                         | inl x => ReadForm x s
                         | inr stack''' => read_chars stack''' Idle s
                         end
                       else ReadRaise LexException
                   end
               | CQuote => read_chars stack' (InString "") s
               | CIdent => read_chars stack' (InSymbol (String c "")) s
               | CBackslash | COutside => ReadUnmodelled
               end = ReadForm x rest ->
               String.length rest < String.length (String c s)).
    { intros stack' H'.
      destruct (char_class c); try discriminate; eauto.
      destruct stack' as [|[b' items] stack'']; [discriminate|].
      destruct (bracket_eqb b b'); [|discriminate].
      destruct (emit _ stack''); eauto.
      inversion H'; subst. simpl. lia. }
    destruct st; simpl in H.
    + apply Hidle in H. lia.
    + destruct (char_class c);
        try (split; [apply Nat.lt_le_incl|]; eauto; fail).
      destruct (emit _ stack); [|split; [apply Nat.lt_le_incl|]; eauto].
      inversion H; subst. simpl. lia.
    + destruct (char_class c); try discriminate;
        (split; [apply Nat.lt_le_incl|]; eauto).
    + split; [|exact I].
      destruct (char_class c); try discriminate; eauto using Nat.lt_le_incl;
        (destruct (emit _ stack);
         [inversion H; subst; simpl; lia | apply Hidle in H; lia]).
Qed.

Lemma hy_read_shrinks (text : string) (expr : HyObject) (rest : string) :
  hy_read text = ReadForm expr rest -> String.length rest < String.length text.
Proof. intros H. by apply read_chars_shrinks in H as [_ H]. Qed.

Lemma bind_ext {S A B} (m : Action S A) (k1 k2 : A -> Action S B) (s : S) :
  (forall a s', k1 a s' = k2 a s') -> bind m k1 s = bind m k2 s.
Proof. intros H. unfold bind. destruct (m s); auto. Qed.

(** The fuel does not matter once it is above the length of the text. *)
Lemma session_loop_fuel (n m : nat) :
  forall text st,
    String.length text < n -> String.length text < m ->
    session_loop n text st = session_loop m text st.
Proof.
  revert m. induction n as [|n IH]; intros m text st Hn Hm; [lia|].
  destruct m as [|m]; [lia|]. simpl.
  destruct (hy_read text) as [expr rest| |] eqn:Hread; try reflexivity.
  apply hy_read_shrinks in Hread.
  apply bind_ext. intros _ s1.
  destruct (hy_truthy expr).
  - apply bind_ext. intros _ s2. apply bind_ext. intros _ s3.
    apply bind_ext. intros _ s4. apply IH; lia.
  - apply IH; lia.
Qed.

(** One turn of the loop on a form that is evaluated, ... *)
Lemma session_loop_eval (fuel : nat) (text rest : string) (expr : HyObject)
    (ns ns' : gmap string PyValue) (w : World) :
  String.length text < fuel ->
  hy_read text = ReadForm expr rest ->
  hy_truthy expr = true ->
  hy_eval expr ns = EvalOk ns' ->
  session_loop fuel text (ns, w)
  = session_loop (S (String.length rest)) rest
      (ns', add_event (HyEval expr)
              (add_event (Logged DEBUG "expr = %s") (add_event (HyRead expr) w))).
Proof.
  intros Hfuel Hread Htruthy Heval.
  pose proof (hy_read_shrinks _ _ _ Hread) as Hrest.
  destruct fuel as [|fuel]; [lia|].
  rewrite (session_loop_fuel (S (String.length rest)) fuel) by lia.
  simpl. rewrite Hread, Htruthy.
  unfold bind. simpl. by rewrite Heval.
Qed.

(** ... on a form that is falsy, ... *)
Lemma session_loop_skip (fuel : nat) (text rest : string) (expr : HyObject)
    (ns : gmap string PyValue) (w : World) :
  String.length text < fuel ->
  hy_read text = ReadForm expr rest ->
  hy_truthy expr = false ->
  session_loop fuel text (ns, w)
  = session_loop (S (String.length rest)) rest (ns, add_event (HyRead expr) w).
Proof.
  intros Hfuel Hread Htruthy.
  pose proof (hy_read_shrinks _ _ _ Hread) as Hrest.
  destruct fuel as [|fuel]; [lia|].
  rewrite (session_loop_fuel (S (String.length rest)) fuel) by lia.
  simpl. rewrite Hread, Htruthy. reflexivity.
Qed.

(** ... and on a reading that raises. *)
Lemma session_loop_raise (fuel : nat) (text : string) (e : PyExn)
    (st : gmap string PyValue * World) :
  0 < fuel ->
  hy_read text = ReadRaise e ->
  session_loop fuel text st = Raises e st.
Proof.
  intros Hfuel Hread. destruct fuel as [|fuel]; [lia|]. simpl. by rewrite Hread.
Qed.

(** The loop never returns: it ends by an exception. *)
Lemma session_loop_never_returns (fuel : nat) :
  forall text st a st', session_loop fuel text st <> Returns a st'.
Proof.
  induction fuel as [|fuel IH]; intros text [ns w] a st'; [done|]. simpl.
  destruct (hy_read text) as [expr rest| |]; try done.
  unfold bind. simpl. destruct (hy_truthy expr); simpl; [|apply IH].
  destruct (hy_eval expr ns); first [apply IH | done].
Qed.


(** * Loading the session file *)

Lemma load_session_file_present (get_project_file : string -> string -> string)
    (self : Application) (w : World) (text : string) :
  files w !! session_file get_project_file self = Some text ->
  load_session_file get_project_file (self, w)
  = match load_stream text (∅, loading w) with
    | Returns _ (_, w') => Returns tt (self, w')
    | Raises e (_, w') => Raises e (self, w')
    | Unmodelled => Unmodelled
    end.
Proof.
  unfold session_file. intros Hfile.
  unfold load_session_file, bind, get_self, in_world, path_exists, gets, open_r.
  simpl. rewrite Hfile.
  rewrite bool_decide_eq_true_2 by eauto. simpl. by rewrite Hfile.
Qed.

(** C3. When the project has no session file, [load_session_file] raises
    nothing: it logs that the file does not exist and returns, and leaves
    the instance, and with it every user's cookies, headers and data, and
    the files as they were. *)
Theorem load_session_file_missing (get_project_file : string -> string -> string)
    (self : Application) (w : World) :
  files w !! session_file get_project_file self = None ->
  load_session_file get_project_file (self, w)
  = Returns tt
      (self, add_event (Logged CRITICAL "Configuration file doesn't exist") (loading w)).
Proof.
  unfold session_file. intros Hfile.
  unfold load_session_file, bind, get_self, in_world, path_exists, gets.
  simpl. rewrite Hfile.
  rewrite bool_decide_eq_false_2 by (intros [? ?]; discriminate).
  reflexivity.
Qed.

Lemma session_loop_steps (text : string) (ns : gmap string PyValue)
    (text' : string) (ns' : gmap string PyValue) :
  session_steps text ns text' ns' ->
  forall w, exists w',
    session_loop (S (String.length text)) text (ns, w)
    = session_loop (S (String.length text')) text' (ns', w')
    /\ files w' = files w.
Proof.
  induction 1 as [text ns | text expr rest ns text' ns' Hread Htruthy _ IH
                 | text expr rest ns ns1 text' ns' Hread Htruthy Heval _ IH]; intros w.
  - by exists w.
  - rewrite (session_loop_skip _ _ _ _ _ _ (Nat.lt_succ_diag_r _) Hread Htruthy).
    destruct (IH (add_event (HyRead expr) w)) as (w' & -> & Hfiles). by exists w'.
  - rewrite (session_loop_eval _ _ _ _ _ _ _ (Nat.lt_succ_diag_r _) Hread Htruthy Heval).
    edestruct IH as (w' & -> & Hfiles). by exists w'.
Qed.

(** C2. On an existing session file, when the loop has come to a position
    at which the reading raises, the load ends there: an [EOFError] ends it
    without an error, and any other exception of the reader (a malformed
    expression) comes out of [load_session_file] as it is.  Nothing is read
    after it, and no file is changed. *)
Theorem load_session_file_reader_raises (get_project_file : string -> string -> string)
    (self : Application) (w : World) (text text' : string)
    (ns' : gmap string PyValue) (e : PyExn) :
  files w !! session_file get_project_file self = Some text ->
  session_steps text ∅ text' ns' ->
  hy_read text' = ReadRaise e ->
  exists w',
    load_session_file get_project_file (self, w)
    = (if is_EOFError e then Returns tt (self, w') else Raises e (self, w'))
    /\ files w' = files w.
Proof.
  intros Hfile Hsteps Hread.
  rewrite (load_session_file_present _ _ _ _ Hfile).
  unfold load_stream, try_except_EOFError.
  destruct (session_loop_steps _ _ _ _ Hsteps (loading w)) as (w1 & -> & Hfiles).
  rewrite (session_loop_raise _ _ _ _ (Nat.lt_0_succ _) Hread).
  destruct (is_EOFError e); simpl; eexists; split; try reflexivity; exact Hfiles.
Qed.


(** * What a load leaves in the world, and the file as it is written *)

Lemma session_loop_trace (fuel : nat) :
  forall text ns w ns' w',
    final_state (session_loop fuel text (ns, w)) = Some (ns', w') ->
    files w' = files w
    /\ exists tr, events w' = (events w ++ tr)%list /\ read_eval_trace tr.
Proof.
  induction fuel as [|fuel IH]; intros text ns w ns' w'; [done|]. simpl.
  destruct (hy_read text) as [expr rest|e|]; [| |done].
  - unfold bind. simpl. destruct (hy_truthy expr) eqn:Htruthy; simpl.
    + destruct (hy_eval expr ns) as [ns1|e|]; simpl; [| |done].
      * intros H. apply IH in H as (Hfiles & tr & Hev & Htr). split; [done|].
        exists (HyRead expr :: Logged DEBUG "expr = %s" :: HyEval expr :: tr).
        split; [|by constructor]. rewrite Hev. simpl.
        by rewrite <- !app_assoc.
      * intros [= <- <-]. split; [done|].
        exists [HyRead expr; Logged DEBUG "expr = %s"; HyEval expr].
        split; [|by repeat constructor]. simpl. by rewrite <- !app_assoc.
    + intros H. apply IH in H as (Hfiles & tr & Hev & Htr). split; [done|].
      exists (HyRead expr :: tr). split; [|by constructor].
      rewrite Hev. simpl. by rewrite <- !app_assoc.
  - intros [= <- <-]. split; [done|]. exists []. split; [|constructor].
    by rewrite app_nil_r.
Qed.

Lemma load_stream_trace (text : string) (ns : gmap string PyValue) (w : World)
    (ns' : gmap string PyValue) (w' : World) :
  final_state (load_stream text (ns, w)) = Some (ns', w') ->
  files w' = files w
  /\ exists tr, read_eval_trace tr
       /\ (events w' = (events w ++ tr)%list
           \/ events w' = (events w ++ tr ++ [finished])%list).
Proof.
  unfold load_stream, try_except_EOFError.
  destruct (session_loop _ text (ns, w)) as [a st|e [ns1 w1]|] eqn:Hloop; [| |done].
  - by apply session_loop_never_returns in Hloop.
  - pose proof (session_loop_trace (S (String.length text)) text ns w ns1 w1) as Htrace.
    rewrite Hloop in Htrace. destruct (Htrace eq_refl) as (Hfiles & tr & Hev & Htr).
    destruct (is_EOFError e); simpl; intros [= <- <-]; (split; [done|]);
      exists tr; (split; [done|]).
    + right. simpl. rewrite Hev. by rewrite <- app_assoc.
    + by left.
Qed.

(** [load_session_file] leaves the instance as it was. *)
Lemma load_session_file_self (get_project_file : string -> string -> string)
    (self : Application) (w : World) (self' : Application) (w' : World) :
  final_state (load_session_file get_project_file (self, w)) = Some (self', w') ->
  self' = self /\ files w' = files w.
Proof.
  destruct (files w !! session_file get_project_file self) as [text|] eqn:Hfile.
  - rewrite (load_session_file_present _ _ _ _ Hfile).
    destruct (load_stream text (∅, loading w)) as [a [ns1 w1]|e [ns1 w1]|] eqn:Hload;
      [| |done]; intros [= <- <-]; (split; [done|]);
      pose proof (load_stream_trace text ∅ (loading w) ns1 w1) as Htrace;
      rewrite Hload in Htrace; by destruct (Htrace eq_refl) as [-> _].
  - unfold session_file in Hfile.
    unfold load_session_file, bind, get_self, in_world, path_exists, gets.
    simpl. rewrite Hfile.
    rewrite bool_decide_eq_false_2 by (intros [? ?]; discriminate).
    by intros [= <- <-].
Qed.

Lemma collect_sessions_spec (users : UserStore) :
  collect_sessions users
  = (cookies <$> records users, headers <$> records users, data <$> records users).
Proof.
  unfold collect_sessions.
  rewrite <- (foldl_insert_map_to_list cookies), <- (foldl_insert_map_to_list headers),
    <- (foldl_insert_map_to_list data).
  generalize (∅ : gmap string (gmap string string)) at 1 4.
  generalize (∅ : gmap string (gmap string string)) at 1 3.
  generalize (∅ : gmap string (gmap string string)).
  induction (map_to_list (records users)) as [|[k u] l IH]; intros d h c; [done|].
  simpl. apply IH.
Qed.

Lemma write_session_file_returns (get_project_file : string -> string -> string)
    (self : Application) (w w0 : World) :
  load_session_file get_project_file (self, w) = Returns tt (self, w0) ->
  exists w1,
    write_session_file get_project_file (self, w) = Returns tt (self, w1)
    /\ files w1 = <[session_file get_project_file self := session_text (users self)]> (files w)
    /\ selected_project w1 = selected_project w0.
Proof.
  intros Hload.
  pose proof (load_session_file_self get_project_file self w self w0) as Hself.
  rewrite Hload in Hself. destruct (Hself eq_refl) as [_ Hfiles].
  unfold write_session_file. unfold bind at 1. rewrite Hload.
  unfold bind, get_self, in_world, open_w, modify. simpl.
  rewrite collect_sessions_spec. simpl.
  eexists. split; [reflexivity|]. simpl. split; [|done].
  rewrite lookup_insert_eq, insert_insert_eq, Hfiles.
  unfold session_file, session_text. simpl default.
  by rewrite !append_nil_l, !append_assoc.
Qed.


Lemma load_stream_session_text (users : UserStore) (w : World) :
  load_stream (session_text users) (∅, w)
  = Returns tt (session_bindings users, loaded users w).
Proof.
  unfold load_stream, try_except_EOFError, session_text.
  rewrite <- (append_nil_r (create_hy_expression "_data" _)).
  erewrite session_loop_eval;
    [ | lia | by apply read_create_hy_expression | done | by apply eval_setv_form ].
  erewrite session_loop_eval;
    [ | lia | rewrite read_newline; by apply read_create_hy_expression | done
      | by apply eval_setv_form ].
  erewrite session_loop_eval;
    [ | lia | rewrite read_newline; by apply read_create_hy_expression | done
      | by apply eval_setv_form ].
  rewrite (session_loop_raise _ _ EOFError) by (done || lia).
  reflexivity.
Qed.

Lemma session_entry_bindings (users : UserStore) (username : string) :
  session_entry (session_bindings users) "_cookies" username
  = py_of_map <$> (cookies <$> records users !! username)
  /\ session_entry (session_bindings users) "_headers" username
     = py_of_map <$> (headers <$> records users !! username)
  /\ session_entry (session_bindings users) "_data" username
     = py_of_map <$> (data <$> records users !! username).
Proof.
  unfold session_entry, session_bindings, py_of_data.
  repeat split.
  - rewrite lookup_insert_ne, lookup_insert_ne, lookup_insert_eq by done.
    by rewrite !lookup_fmap.
  - rewrite lookup_insert_ne, lookup_insert_eq by done. by rewrite !lookup_fmap.
  - rewrite lookup_insert_eq. by rewrite !lookup_fmap.
Qed.

(** Equal dicts of strings are equal mappings: nothing of a mapping is lost
    in the value that stands for it. *)
Lemma py_of_map_inj (m1 m2 : gmap string string) : py_of_map m1 = py_of_map m2 -> m1 = m2.
Proof.
  unfold py_of_map. intros [= H]. apply map_eq. intros k.
  apply (f_equal (fun d => d !! k)) in H. rewrite !lookup_fmap in H.
  destruct (m1 !! k), (m2 !! k); simpl in H; congruence.
Qed.

(** C1, as amended.  When the earlier session file, if there is one, loads
    without an error, [write_session_file] returns, and [load_session_file]
    on the file it wrote, from any instance of the same project, returns
    without an error: the evaluation of the file binds [_cookies],
    [_headers] and [_data], and under each name every user of the writing
    instance has the mapping that the user had, and no other username has
    an entry.  The instance that loads is left as it was: its users'
    mappings are not taken from the file. *)
Theorem session_round_trip (get_project_file : string -> string -> string)
    (self fresh : Application) (w w0 : World) :
  load_session_file get_project_file (self, w) = Returns tt (self, w0) ->
  name fresh = name self ->
  exists (w1 w2 : World) (text : string) (ns : gmap string PyValue),
    write_session_file get_project_file (self, w) = Returns tt (self, w1)
    /\ files w1 !! session_file get_project_file fresh = Some text
    /\ load_stream text (∅, loading w1) = Returns tt (ns, w2)
    /\ load_session_file get_project_file (fresh, w1) = Returns tt (fresh, w2)
    /\ dom ns = {[ "_cookies"; "_headers"; "_data" ]}
    /\ forall username,
         session_entry ns "_cookies" username
         = py_of_map <$> (cookies <$> records (users self) !! username)
         /\ session_entry ns "_headers" username
            = py_of_map <$> (headers <$> records (users self) !! username)
         /\ session_entry ns "_data" username
            = py_of_map <$> (data <$> records (users self) !! username).
Proof.
  intros Hload Hname.
  destruct (write_session_file_returns _ _ _ _ Hload) as (w1 & Hwrite & Hfiles & _).
  assert (Hfile : files w1 !! session_file get_project_file fresh
                  = Some (session_text (users self))).
  { unfold session_file in *. rewrite Hname, Hfiles. apply lookup_insert_eq. }
  exists w1, (loaded (users self) (loading w1)), (session_text (users self)),
    (session_bindings (users self)).
  split; [exact Hwrite|]. split; [exact Hfile|].
  split; [apply load_stream_session_text|].
  split.
  { rewrite (load_session_file_present _ _ _ _ Hfile).
    by rewrite load_stream_session_text. }
  split; [|apply session_entry_bindings].
  unfold session_bindings. rewrite !dom_insert_L, dom_empty_L. set_solver.
Qed.


Lemma evaluated_app (evs1 evs2 : list Event) :
  evaluated (evs1 ++ evs2) = (evaluated evs1 ++ evaluated evs2)%list.
Proof. apply omap_app. Qed.

Lemma evaluated_loaded (users : UserStore) (w : World) :
  evaluated (events (loaded users (loading w)))
  = (evaluated (events w) ++ session_forms users)%list.
Proof.
  unfold loaded, loading, turn, session_forms. simpl.
  rewrite !evaluated_app. simpl. by rewrite <- !app_assoc, !app_nil_r.
Qed.

(** C4, as amended.  On an existing session file every form is evaluated
    right after it is read and before the next one is read: what the load
    adds to the events is, turn by turn, a reading followed at once, for a
    truthy form, by the evaluation of the form read.  The evaluation binds
    the name that the expression assigns.  For a file as
    [write_session_file] writes it the load returns, the expressions
    evaluated are the three of the file, and the names bound are
    [_cookies], [_headers] and [_data] and no other. *)
Theorem load_session_file_evaluates_as_read
    (get_project_file : string -> string -> string)
    (self : Application) (w : World) (text : string) :
  files w !! session_file get_project_file self = Some text ->
  (forall self' w',
      final_state (load_session_file get_project_file (self, w)) = Some (self', w') ->
      exists tr, read_eval_trace tr
        /\ (events w' = (events (loading w) ++ tr)%list
            \/ events w' = (events (loading w) ++ tr ++ [finished])%list))
  /\ (forall users, text = session_text users ->
      exists ns w',
        load_stream text (∅, loading w) = Returns tt (ns, w')
        /\ load_session_file get_project_file (self, w) = Returns tt (self, w')
        /\ evaluated (events w') = (evaluated (events w) ++ session_forms users)%list
        /\ dom ns = {[ "_cookies"; "_headers"; "_data" ]}).
Proof.
  intros Hfile. split.
  - intros self' w'. rewrite (load_session_file_present _ _ _ _ Hfile).
    destruct (load_stream text (∅, loading w)) as [a [ns1 w1]|e [ns1 w1]|] eqn:Hload;
      [| |done]; intros [= <- <-];
      pose proof (load_stream_trace text ∅ (loading w) ns1 w1) as Htrace;
      rewrite Hload in Htrace; by destruct (Htrace eq_refl) as [_ ?].
  - intros users ->.
    exists (session_bindings users), (loaded users (loading w)).
    split; [apply load_stream_session_text|]. split.
    { rewrite (load_session_file_present _ _ _ _ Hfile).
      by rewrite load_stream_session_text. }
    split; [apply evaluated_loaded|].
    unfold session_bindings. rewrite !dom_insert_L, dom_empty_L. set_solver.
Qed.

Section Construction.

Variable load_project : Config -> option string -> Action World (gmap string PyValue).
Variable UserStore_new : PyValue -> Attempt UserStore.
Variable Authentication_new : PyValue -> Attempt Authentication.
Variable Functions_new : PyValue -> Attempt Functions.

Variables (project : option string) (w w1 w2 : World) (cfg : Config) (n : string)
          (output : gmap string PyValue).
Hypothesis Hselect : select_project project w = Returns (cfg, n) w1.
Hypothesis Houtput : load_project cfg project w1 = Returns output w2.

(** What a construction that returns went through. *)
Lemma construct_returns_inv (self : Application) (w' : World) :
  __init__ load_project UserStore_new Authentication_new Functions_new project w
  = Returns self w' ->
  w' = w2
  /\ config self = cfg /\ name self = n
  /\ (exists raw, output !! "_users" = Some raw /\ UserStore_new raw = Ok (users self))
  /\ resolve_active_user (users self) (output !! "_active_user") = Ok (active_user self)
  /\ (exists raw, output !! "_authentication" = Some raw
                  /\ Authentication_new raw = Ok (authentication self))
  /\ (output !! "_functions" = None -> functions self = None)
  /\ output !! "_base_url" = Some (base_url self).
Proof.
  unfold __init__, bind. rewrite Hselect, Houtput.
  unfold getitem, attempt, ret, raise.
  destruct (output !! "_users") as [raw_users|]; [|done].
  destruct (UserStore_new raw_users) as [store|] eqn:Hstore; [|done].
  destruct (resolve_active_user store _) as [ref|] eqn:Href; [|done].
  destruct (output !! "_authentication") as [raw_auth|]; [|done].
  destruct (Authentication_new raw_auth) as [auth|] eqn:Hauth; [|done].
  destruct (output !! "_functions") as [raw_functions|].
  - destruct (py_truthy raw_functions).
    + destruct (Functions_new raw_functions); [|done].
      destruct (output !! "_base_url"); [|done].
      intros [= <- <-]. simpl. naive_solver.
    + destruct (output !! "_base_url"); [|done].
      intros [= <- <-]. simpl. naive_solver.
  - destruct (output !! "_base_url"); [|done].
    intros [= <- <-]. simpl. naive_solver.
Qed.

(** A construction with the required keys and without [_functions]. *)
Lemma construct_returns (raw_users raw_auth url : PyValue) (store : UserStore)
    (ref : string) (auth : Authentication) :
  output !! "_users" = Some raw_users ->
  UserStore_new raw_users = Ok store ->
  resolve_active_user store (output !! "_active_user") = Ok ref ->
  output !! "_authentication" = Some raw_auth ->
  Authentication_new raw_auth = Ok auth ->
  output !! "_functions" = None ->
  output !! "_base_url" = Some url ->
  __init__ load_project UserStore_new Authentication_new Functions_new project w
  = Returns {| config := cfg; name := n; users := store; active_user := ref;
               authentication := auth; functions := None; base_url := url |} w2.
Proof.
  intros Husers Hstore Href Hauth Hauth' Hfunctions Hurl.
  unfold __init__, bind. rewrite Hselect, Houtput.
  unfold getitem, attempt, ret, raise.
  by rewrite Husers, Hstore, Href, Hauth, Hauth', Hfunctions, Hurl.
Qed.

(** C5, as amended.  After a construction, when the loaded configuration
    holds a non-empty string for the active user, the active user is the
    user of that name, who is in the store, whatever the store's own
    default is; when it holds no value for the active user, or a falsy
    one (the empty string), the active user is the store's own default. *)
Theorem construct_active_user (self : Application) (w' : World) :
  __init__ load_project UserStore_new Authentication_new Functions_new project w
  = Returns self w' ->
  (forall u, output !! "_active_user" = Some (PyStr u) -> u <> "" ->
      active_user self = u /\ is_Some (records (users self) !! u))
  /\ (opt_truthy py_truthy (output !! "_active_user") = false ->
      active_user self = active (users self)).
Proof.
  intros Hconstruct.
  destruct (construct_returns_inv _ _ Hconstruct) as (_ & _ & _ & _ & Href & _).
  unfold resolve_active_user in Href. split.
  - intros u Hu Hne. rewrite Hu in Href.
    destruct u as [|c u]; [done|]. simpl in Href.
    destruct (records (users self) !! String c u) eqn:Hlookup; [|done].
    injection Href as <-. eauto.
  - intros Hfalsy. destruct (output !! "_active_user") as [key|]; simpl in Hfalsy.
    + rewrite Hfalsy in Href. by injection Href.
    + by injection Href.
Qed.

(** C8.  When a required key ([_users], [_authentication], [_base_url])
    is absent from the loaded configuration, the construction raises, in
    the world in which the configuration was loaded: nothing was run or
    written since.  The exception is the [KeyError] of an absent required
    key, unless a collaborator that is built before that key is read
    raised first; it is [KeyError "_users"] when [_users] is absent.
    When the required keys are there and the collaborators are built, the
    absence of [_active_user] and of [_functions] is no failure: the
    active user is the store's default and no functions are set. *)
Theorem construct_requires_keys :
  (forall key, key ∈ required_keys -> output !! key = None ->
      exists e,
        __init__ load_project UserStore_new Authentication_new Functions_new project w
        = Raises e w2
        /\ ((exists k, k ∈ required_keys /\ output !! k = None /\ e = KeyError k)
            \/ (exists raw, UserStore_new raw = Fail e)
            \/ (exists store,
                   resolve_active_user store (output !! "_active_user") = Fail e)
            \/ (exists raw, Authentication_new raw = Fail e)
            \/ (exists raw, Functions_new raw = Fail e))
        /\ (output !! "_users" = None -> e = KeyError "_users"))
  /\ (forall raw_users raw_auth url store auth,
        output !! "_users" = Some raw_users ->
        UserStore_new raw_users = Ok store ->
        output !! "_authentication" = Some raw_auth ->
        Authentication_new raw_auth = Ok auth ->
        output !! "_base_url" = Some url ->
        output !! "_active_user" = None ->
        output !! "_functions" = None ->
        __init__ load_project UserStore_new Authentication_new Functions_new project w
        = Returns {| config := cfg; name := n; users := store;
                     active_user := active store; authentication := auth;
                     functions := None; base_url := url |} w2).
Proof.
  split.
  - intros key Hkey Hnone.
    assert (Hmissing : output !! "_users" = None
                       \/ output !! "_authentication" = None
                       \/ output !! "_base_url" = None).
    { unfold required_keys in Hkey. rewrite !elem_of_cons, elem_of_nil in Hkey.
      destruct Hkey as [->|[->|[->|[]]]]; auto. }
    clear key Hkey Hnone.
    assert (Hin : forall k,
               k ∈ required_keys
               <-> k = "_users" \/ k = "_authentication" \/ k = "_base_url").
    { intros k. unfold required_keys. rewrite !elem_of_cons, elem_of_nil. tauto. }
    unfold __init__, bind. rewrite Hselect, Houtput.
    unfold getitem, attempt, ret, raise.
    destruct (output !! "_users") as [raw_users|] eqn:Husers.
    2:{ eexists. split; [reflexivity|]. split; [|done].
        left. exists "_users". rewrite Hin. auto. }
    destruct (UserStore_new raw_users) as [store|] eqn:Hstore.
    2:{ eexists. split; [reflexivity|]. split; [|done]. right. left. eauto. }
    destruct (resolve_active_user store _) as [ref|] eqn:Href.
    2:{ eexists. split; [reflexivity|]. split; [|done]. do 2 right. left. eauto. }
    destruct (output !! "_authentication") as [raw_auth|] eqn:Hauth.
    2:{ eexists. split; [reflexivity|]. split; [|done].
        left. exists "_authentication". rewrite Hin. auto. }
    destruct (Authentication_new raw_auth) as [auth|] eqn:Hauth'.
    2:{ eexists. split; [reflexivity|]. split; [|done]. do 3 right. left. eauto. }
    assert (Hurl : output !! "_base_url" = None).
    { destruct Hmissing as [H|[H|H]]; congruence. }
    destruct (output !! "_functions") as [raw_functions|];
      [destruct (py_truthy raw_functions);
       [destruct (Functions_new raw_functions) eqn:Hfunctions|]|];
      rewrite ?Hurl; eexists; (split; [reflexivity|]); (split; [|done]);
      first [ left; exists "_base_url"; rewrite Hin; by auto
            | do 4 right; by eauto ].
  - intros raw_users raw_auth url store auth
      Husers Hstore Hauth Hauth' Hurl Hactive Hfns.
    eapply construct_returns; eauto. by rewrite Hactive.
Qed.

(** C10.  When the loaded configuration has no [_functions] key, a
    construction that returns has not assigned the attribute [functions]:
    reading it raises an [AttributeError].  The absence of the key is no
    failure: with the required keys there and the collaborators built,
    the construction returns. *)
Theorem construct_without_functions :
  output !! "_functions" = None ->
  (forall self w',
      __init__ load_project UserStore_new Authentication_new Functions_new project w
      = Returns self w' ->
      functions self = None
      /\ getattr_functions self = Fail (AttributeError "functions"))
  /\ (forall raw_users raw_auth url store ref auth,
        output !! "_users" = Some raw_users ->
        UserStore_new raw_users = Ok store ->
        resolve_active_user store (output !! "_active_user") = Ok ref ->
        output !! "_authentication" = Some raw_auth ->
        Authentication_new raw_auth = Ok auth ->
        output !! "_base_url" = Some url ->
        exists self,
          __init__ load_project UserStore_new Authentication_new Functions_new project w
          = Returns self w2
          /\ getattr_functions self = Fail (AttributeError "functions")).
Proof.
  intros Hfns. split.
  - intros self w' Hconstruct.
    destruct (construct_returns_inv _ _ Hconstruct)
      as (_ & _ & _ & _ & _ & _ & Hnone & _).
    unfold getattr_functions. by rewrite (Hnone Hfns).
  - intros raw_users raw_auth url store ref auth Husers Hstore Href Hauth Hauth' Hurl.
    eexists. split; [by eapply construct_returns|]. reflexivity.
Qed.

End Construction.


(** * The project file and [authenticate] *)

Section Authenticate.

Variable get_project_file : string -> string -> string.
Variable run_all : Authentication -> User -> Config -> Attempt User.

Lemma write_project_file_returns (self : Application) (w : World) (user : User) :
  records (users self) !! active_user self = Some user ->
  write_project_file get_project_file (self, w)
  = Returns tt (self, project_written get_project_file self user w).
Proof.
  intros Huser.
  unfold write_project_file, deref_active_user, bind, get_self, in_world,
    open_w, modify, ret.
  simpl. rewrite Huser. simpl.
  unfold project_written, add_event, set_files, project_file, project_text.
  simpl.
  rewrite lookup_insert_eq, insert_insert_eq. simpl.
  by rewrite <- !app_assoc.
Qed.

(** C9.  [write_project_file] puts one expression in the project file,
    whatever the file held: the binding of [_active_user] to the username
    of the active user.  A second call with nothing changed in between
    leaves the same file.  Read back, the file gives that one expression,
    then the end of the stream, and the expression evaluates to the
    binding of [_active_user] to the same username. *)
Theorem write_project_file_idempotent (self : Application) (w : World) (user : User) :
  records (users self) !! active_user self = Some user ->
  exists w1 w2,
    write_project_file get_project_file (self, w) = Returns tt (self, w1)
    /\ write_project_file get_project_file (self, w1) = Returns tt (self, w2)
    /\ files w2 = files w1
    /\ files w1 = <[project_file get_project_file self := project_text user]> (files w)
    /\ hy_read (project_text user)
       = ReadForm (setv_form "_active_user" (DataStr (username user))) newline
    /\ hy_read newline = ReadRaise EOFError
    /\ hy_eval (setv_form "_active_user" (DataStr (username user))) ∅
       = EvalOk {[ "_active_user" := PyStr (username user) ]}.
Proof.
  intros Huser.
  exists (project_written get_project_file self user w),
    (project_written get_project_file self user
       (project_written get_project_file self user w)).
  split; [by apply write_project_file_returns|].
  split; [by apply write_project_file_returns|].
  split; [simpl; by rewrite insert_insert_eq|].
  split; [reflexivity|].
  split.
  { unfold project_text.
    rewrite <- (append_nil_r (create_hy_expression _ _)).
    rewrite read_create_hy_expression by done. by rewrite append_nil_r. }
  split; [reflexivity|].
  by rewrite eval_setv_form.
Qed.

(** [authenticate] with no username, or an empty one, runs for the user
    that is active. *)
Lemma authenticate_active (username : option string) (self : Application)
    (w : World) (user : User) :
  opt_truthy str_truthy username = false ->
  records (users self) !! active_user self = Some user ->
  authenticate get_project_file run_all username (self, w)
  = match run_all (authentication self) user (config self) with
    | Ok user' =>
        Returns tt
          (update_user (active_user self) user' self,
           project_written get_project_file self user'
             (add_event (RunAll user (config self)) w))
    | Fail e => Raises e (self, add_event (RunAll user (config self)) w)
    end.
Proof.
  intros Hfalsy Huser.
  assert (Hprefix : forall s : Application * World,
             (match username with
              | Some (String _ _ as u) =>
                  self <- get_self ;;
                  ref <- attempt (UserStore_getitem (users self) (PyStr u)) ;;
                  modify_self (set_active_user ref)
              | _ => ret tt
              end) s = Returns tt s).
  { intros s. by destruct username as [[|c u]|]. }
  unfold authenticate. unfold bind at 1. rewrite Hprefix.
  unfold bind at 1. unfold get_self at 1. cbn [fst].
  unfold bind at 1. unfold deref_active_user, bind at 1, get_self at 1. cbn [fst].
  rewrite Huser. unfold ret at 1.
  unfold bind at 1. unfold in_world, trace, modify.
  unfold bind at 1. unfold attempt.
  destruct (run_all (authentication self) user (config self)) as [user'|e]; [|done].
  unfold ret at 1. unfold bind at 1. unfold modify_self. cbn [fst snd].
  rewrite (write_project_file_returns _ _ user').
  - reflexivity.
  - simpl. apply lookup_insert_eq.
Qed.

(** [authenticate] with a username that is not empty looks the user up
    first and makes it the active user. *)
Lemma authenticate_named (c : ascii) (u : string) (self : Application) (w : World) :
  authenticate get_project_file run_all (Some (String c u)) (self, w)
  = match records (users self) !! String c u with
    | Some _ =>
        authenticate get_project_file run_all None
          (set_active_user (String c u) self, w)
    | None => Raises (KeyError (String c u)) (self, w)
    end.
Proof.
  unfold authenticate. unfold bind at 1 3. unfold bind at 1.
  unfold get_self at 1. cbn [fst]. unfold bind at 1. unfold UserStore_getitem.
  destruct (records (users self) !! String c u); reflexivity.
Qed.

(** C6, as amended.  [authenticate username] with a username that is not
    empty and that the store holds makes that user the active user,
    whoever was active, and runs the authentication once, on the record
    of that user; with a username that is not empty and that the store
    does not hold it raises the lookup error and changes nothing. *)
Theorem authenticate_username (u : string) (self : Application) (w : World) :
  u <> "" ->
  match records (users self) !! u with
  | Some user =>
      exists self' w',
        final_state (authenticate get_project_file run_all (Some u) (self, w))
        = Some (self', w')
        /\ active_user self' = u
        /\ runs (events w') = (runs (events w) ++ [(user, config self)])%list
  | None =>
      authenticate get_project_file run_all (Some u) (self, w)
      = Raises (KeyError u) (self, w)
  end.
Proof.
  intros Hu. destruct u as [|c u]; [done|]. rewrite authenticate_named.
  destruct (records (users self) !! String c u) as [user|] eqn:Huser; [|done].
  rewrite (authenticate_active None _ _ user) by done. simpl.
  destruct (run_all (authentication self) user (config self)) as [user'|e]; simpl.
  - do 2 eexists. split; [reflexivity|]. split; [done|]. simpl.
    unfold runs. rewrite !omap_app. simpl. by rewrite app_nil_r.
  - do 2 eexists. split; [reflexivity|]. split; [done|]. simpl.
    unfold runs. by rewrite !omap_app.
Qed.

(** C7.  An [authenticate] that returns has run the authentication and,
    after it, written the project file: the file holds the binding of
    [_active_user] to the username of the active user.  That is the only
    write: every other file, and with it the session file when the
    project keeps the two files apart, is as it was. *)
Theorem authenticate_persists_marker (username : option string)
    (self self' : Application) (w w' : World) :
  project_file get_project_file self <> session_file get_project_file self ->
  authenticate get_project_file run_all username (self, w) = Returns tt (self', w') ->
  exists ran user,
    records (users self') !! active_user self' = Some user
    /\ files w' = <[project_file get_project_file self := project_text user]> (files w)
    /\ files w' !! session_file get_project_file self
       = files w !! session_file get_project_file self
    /\ events w'
       = (events w ++ [RunAll ran (config self);
                       Logged DEBUG "Writing to session file %s";
                       Logged DEBUG "value = %s";
                       FileWrite (project_file get_project_file self)
                                 (project_text user)])%list.
Proof.
  intros Hapart.
  assert (Hactive : forall self1 : Application,
             name self1 = name self -> config self1 = config self ->
             authenticate get_project_file run_all None (self1, w)
             = Returns tt (self', w') ->
             exists ran user,
               records (users self') !! active_user self' = Some user
               /\ files w'
                  = <[project_file get_project_file self := project_text user]> (files w)
               /\ files w' !! session_file get_project_file self
                  = files w !! session_file get_project_file self
               /\ events w'
                  = (events w ++ [RunAll ran (config self);
                                  Logged DEBUG "Writing to session file %s";
                                  Logged DEBUG "value = %s";
                                  FileWrite (project_file get_project_file self)
                                            (project_text user)])%list).
  { intros self1 Hname Hconfig.
    destruct (records (users self1) !! active_user self1) as [user|] eqn:Huser.
    - rewrite (authenticate_active None _ _ user) by done.
      destruct (run_all _ user _) as [user'|e]; [|done].
      intros [= <- <-]. exists user, user'.
      split; [simpl; apply lookup_insert_eq|].
      assert (Hfile : project_file get_project_file self1
                      = project_file get_project_file self).
      { unfold project_file. by rewrite Hname. }
      unfold project_written. cbn [files events add_event].
      rewrite Hfile, Hconfig. split; [reflexivity|].
      split; [by rewrite lookup_insert_ne|].
      by rewrite <- !app_assoc.
    - unfold authenticate, deref_active_user, bind, get_self, ret, unmodelled.
      cbn [fst snd]. intros H.
      destruct (records (users self1) !! active_user self1); discriminate. }
  destruct username as [[|c u]|].
  - apply (Hactive self); reflexivity.
  - rewrite authenticate_named.
    destruct (records (users self) !! String c u); [|done].
    apply (Hactive (set_active_user (String c u) self)); reflexivity.
  - apply (Hactive self); reflexivity.
Qed.

End Authenticate.


(** C1: the claim fails.  alice holds a cookie; the session file is
    written, and a fresh instance of the project loads it without an
    error; alice's cookies in the fresh instance are still empty, not the
    ones that were written. *)
Lemma session_round_trip_not_restored :
  exists w1 self' w2,
    write_session_file demo_get_project_file (demo_app demo_store, demo_world)
    = Returns tt (demo_app demo_store, w1)
    /\ load_session_file demo_get_project_file (demo_app fresh_store, w1)
       = Returns tt (self', w2)
    /\ cookies <$> records (users (demo_app demo_store)) !! "alice"
       = Some {[ "sid" := "abc" ]}
    /\ cookies <$> records (users self') !! "alice" = Some ∅.
Proof.
  do 3 eexists. split; [vm_compute; reflexivity|].
  split; [vm_compute; reflexivity|].
  split; vm_compute; reflexivity.
Qed.

(** C1, witness: the round trip of the example store, loaded by a fresh
    instance. *)
Lemma session_round_trip_witness :
  exists (w1 w2 : World) (text : string) (ns : gmap string PyValue),
    write_session_file demo_get_project_file (demo_app demo_store, demo_world)
    = Returns tt (demo_app demo_store, w1)
    /\ files w1 !! session_file demo_get_project_file (demo_app fresh_store) = Some text
    /\ load_stream text (∅, loading w1) = Returns tt (ns, w2)
    /\ load_session_file demo_get_project_file (demo_app fresh_store, w1)
       = Returns tt (demo_app fresh_store, w2)
    /\ dom ns = {[ "_cookies"; "_headers"; "_data" ]}
    /\ forall username,
         session_entry ns "_cookies" username
         = py_of_map <$> (cookies <$> records (users (demo_app demo_store)) !! username)
         /\ session_entry ns "_headers" username
            = py_of_map <$> (headers <$> records (users (demo_app demo_store)) !! username)
         /\ session_entry ns "_data" username
            = py_of_map <$> (data <$> records (users (demo_app demo_store)) !! username).
Proof.
  eapply (session_round_trip demo_get_project_file (demo_app demo_store)
            (demo_app fresh_store) demo_world).
  - vm_compute. reflexivity.
  - reflexivity.
Defined.

(** C2, witness: after the first expression of the file the reader meets a
    closing bracket that closes nothing, and the load raises the error of
    the lexer. *)
Lemma load_session_file_reader_raises_witness :
  exists w',
    load_session_file demo_get_project_file (demo_app fresh_store, broken_world)
    = Raises LexException (demo_app fresh_store, w')
    /\ files w' = files broken_world.
Proof.
  eapply (load_session_file_reader_raises demo_get_project_file (demo_app fresh_store)
            broken_world broken_text (newline +:+ ")") _ LexException).
  - reflexivity.
  - eapply steps_eval; [reflexivity | reflexivity | reflexivity | apply steps_here].
  - reflexivity.
Defined.

(** C3, witness: the example project has no session file. *)
Lemma load_session_file_missing_witness :
  load_session_file demo_get_project_file (demo_app fresh_store, demo_world)
  = Returns tt
      (demo_app fresh_store,
       add_event (Logged CRITICAL "Configuration file doesn't exist") (loading demo_world)).
Proof.
  apply (load_session_file_missing demo_get_project_file (demo_app fresh_store) demo_world).
  reflexivity.
Defined.


(** C4: the claim fails.  A session file whose expression assigns to
    [_other] is loaded without an error: the expression is evaluated, and
    the name it binds is none of the three. *)
Lemma load_session_file_binds_other_name :
  exists ns w',
    load_session_file demo_get_project_file (demo_app fresh_store, other_world)
    = Returns tt (demo_app fresh_store, w')
    /\ load_stream other_text (∅, loading other_world) = Returns tt (ns, w')
    /\ evaluated (events w') = [setv_form "_other" (DataStr "x")]
    /\ ns !! "_other" = Some (PyStr "x")
    /\ "_other" ∉ ["_cookies"; "_headers"; "_data"].
Proof.
  do 2 eexists. split; [vm_compute; reflexivity|].
  split; [vm_compute; reflexivity|].
  split; [vm_compute; reflexivity|].
  split; [vm_compute; reflexivity|].
  rewrite !elem_of_cons, elem_of_nil. intros [H|[H|[H|[]]]]; discriminate H.
Qed.

(** C4, witness: the load of the session file of the example store. *)
Lemma load_session_file_evaluates_as_read_witness :
  exists ns w',
    load_stream (session_text demo_store) (∅, loading written_world) = Returns tt (ns, w')
    /\ load_session_file demo_get_project_file (demo_app fresh_store, written_world)
       = Returns tt (demo_app fresh_store, w')
    /\ evaluated (events w')
       = (evaluated (events written_world) ++ session_forms demo_store)%list
    /\ dom ns = {[ "_cookies"; "_headers"; "_data" ]}.
Proof.
  refine (proj2 (load_session_file_evaluates_as_read demo_get_project_file
                   (demo_app fresh_store) written_world (session_text demo_store) _)
                demo_store eq_refl).
  reflexivity.
Defined.

(** C5: the claim fails.  The loaded configuration holds the empty string
    for the active user, the store holds a user of that name, and the
    active user after construction is the store's default, bob. *)
Lemma construct_empty_active_user :
  exists self w',
    __init__ (demo_load_project empty_name_output) (demo_UserStore_new "bob")
      demo_Authentication_new demo_Functions_new None demo_world
    = Returns self w'
    /\ empty_name_output !! "_active_user" = Some (PyStr "")
    /\ is_Some (records (users self) !! "")
    /\ active (users self) = "bob"
    /\ active_user self = "bob".
Proof.
  do 2 eexists. split; [vm_compute; reflexivity|].
  split; [vm_compute; reflexivity|].
  split; [vm_compute; eauto|].
  split; reflexivity.
Qed.

(** C5, witness: the configuration names alice, the default of the store is
    bob, and alice is the active user. *)
Lemma construct_active_user_witness :
  exists self w',
    __init__ (demo_load_project demo_output) (demo_UserStore_new "bob")
      demo_Authentication_new demo_Functions_new None demo_world
    = Returns self w'
    /\ active (users self) = "bob"
    /\ active_user self = "alice" /\ is_Some (records (users self) !! "alice").
Proof.
  eexists _, _. split; [vm_compute; reflexivity|]. split; [reflexivity|].
  refine (proj1 (construct_active_user (demo_load_project demo_output)
                   (demo_UserStore_new "bob") demo_Authentication_new demo_Functions_new
                   None demo_world demo_world demo_world {| active_project := "demo" |}
                   "demo" demo_output eq_refl eq_refl _ _ _) "alice" _ _).
  - vm_compute. reflexivity.
  - vm_compute. reflexivity.
  - discriminate.
Defined.

(** C6: the claim fails.  The store holds no user of the empty name, and
    [authenticate] with the empty name raises no lookup error: it runs for
    the user that was active and returns. *)
Lemma authenticate_empty_username :
  exists self' w',
    authenticate demo_get_project_file demo_run_all (Some "") (demo_app demo_store, demo_world)
    = Returns tt (self', w')
    /\ records (users (demo_app demo_store)) !! "" = None
    /\ active_user self' = "bob"
    /\ runs (events w') = [(demo_user "bob" ∅, {| active_project := "demo" |})].
Proof.
  do 2 eexists. split; [vm_compute; reflexivity|].
  split; [vm_compute; reflexivity|].
  split; vm_compute; reflexivity.
Qed.

(** C6, witness: alice is in the example store and carol is not. *)
Lemma authenticate_username_witness :
  (exists self' w',
      final_state (authenticate demo_get_project_file demo_run_all (Some "alice")
                     (demo_app demo_store, demo_world)) = Some (self', w')
      /\ active_user self' = "alice"
      /\ runs (events w')
         = (runs (events demo_world)
              ++ [(demo_user "alice" {[ "sid" := "abc" ]}, config (demo_app demo_store))])%list)
  /\ authenticate demo_get_project_file demo_run_all (Some "carol")
       (demo_app demo_store, demo_world)
     = Raises (KeyError "carol") (demo_app demo_store, demo_world).
Proof.
  split.
  - exact (authenticate_username demo_get_project_file demo_run_all "alice"
             (demo_app demo_store) demo_world ltac:(discriminate)).
  - exact (authenticate_username demo_get_project_file demo_run_all "carol"
             (demo_app demo_store) demo_world ltac:(discriminate)).
Defined.

(** C7, witness: [authenticate] without a username in the example project,
    where the project file and the session file are different files. *)
Lemma authenticate_persists_marker_witness :
  exists self' w' ran user,
    authenticate demo_get_project_file demo_run_all None (demo_app demo_store, demo_world)
    = Returns tt (self', w')
    /\ records (users self') !! active_user self' = Some user
    /\ files w' = <[ "demo/_project.hy" := project_text user ]> (files demo_world)
    /\ files w' !! "demo/_userdata.hy" = files demo_world !! "demo/_userdata.hy"
    /\ events w'
       = (events demo_world
            ++ [RunAll ran (config (demo_app demo_store));
                Logged DEBUG "Writing to session file %s";
                Logged DEBUG "value = %s";
                FileWrite "demo/_project.hy" (project_text user)])%list.
Proof.
  eexists _, _.
  assert (Hrun : authenticate demo_get_project_file demo_run_all None
                   (demo_app demo_store, demo_world)
                 = Returns tt
                     (update_user "bob" (demo_user "bob" {[ "session" := "token" ]})
                        (demo_app demo_store),
                      project_written demo_get_project_file (demo_app demo_store)
                        (demo_user "bob" {[ "session" := "token" ]})
                        (add_event (RunAll (demo_user "bob" ∅) {| active_project := "demo" |})
                           demo_world))).
  { vm_compute. reflexivity. }
  destruct (authenticate_persists_marker demo_get_project_file demo_run_all None
              (demo_app demo_store) _ demo_world _ ltac:(discriminate) Hrun)
    as (ran & user & H).
  exists ran, user. split; [exact Hrun|]. exact H.
Defined.


(** C8, witness: a configuration without [_base_url]. *)
Lemma construct_requires_keys_witness :
  exists e,
    __init__ (demo_load_project demo_output_no_url) (demo_UserStore_new "bob")
      demo_Authentication_new demo_Functions_new None demo_world
    = Raises e demo_world
    /\ ((exists k, k ∈ required_keys /\ demo_output_no_url !! k = None /\ e = KeyError k)
        \/ (exists raw, demo_UserStore_new "bob" raw = Fail e)
        \/ (exists store,
               resolve_active_user store (demo_output_no_url !! "_active_user") = Fail e)
        \/ (exists raw, demo_Authentication_new raw = Fail e)
        \/ (exists raw, demo_Functions_new raw = Fail e))
    /\ (demo_output_no_url !! "_users" = None -> e = KeyError "_users").
Proof.
  refine (proj1 (construct_requires_keys (demo_load_project demo_output_no_url)
                   (demo_UserStore_new "bob") demo_Authentication_new demo_Functions_new
                   None demo_world demo_world demo_world {| active_project := "demo" |}
                   "demo" demo_output_no_url eq_refl eq_refl) "_base_url" _ _).
  - unfold required_keys. rewrite !elem_of_cons. auto.
  - vm_compute. reflexivity.
Defined.

(** C9, witness: the project file of the example project, bob active. *)
Lemma write_project_file_idempotent_witness :
  exists w1 w2,
    write_project_file demo_get_project_file (demo_app demo_store, demo_world)
    = Returns tt (demo_app demo_store, w1)
    /\ write_project_file demo_get_project_file (demo_app demo_store, w1)
       = Returns tt (demo_app demo_store, w2)
    /\ files w2 = files w1
    /\ files w1
       = <[project_file demo_get_project_file (demo_app demo_store)
           := project_text (demo_user "bob" ∅)]> (files demo_world)
    /\ hy_read (project_text (demo_user "bob" ∅))
       = ReadForm (setv_form "_active_user" (DataStr "bob")) newline
    /\ hy_read newline = ReadRaise EOFError
    /\ hy_eval (setv_form "_active_user" (DataStr "bob")) ∅
       = EvalOk {[ "_active_user" := PyStr "bob" ]}.
Proof.
  apply (write_project_file_idempotent demo_get_project_file (demo_app demo_store)
           demo_world (demo_user "bob" ∅)).
  vm_compute. reflexivity.
Defined.

(** C10, witness: the example configuration has no [_functions]. *)
Lemma construct_without_functions_witness :
  exists self,
    __init__ (demo_load_project demo_output) (demo_UserStore_new "bob")
      demo_Authentication_new demo_Functions_new None demo_world
    = Returns self demo_world
    /\ getattr_functions self = Fail (AttributeError "functions").
Proof.
  refine (proj2 (construct_without_functions (demo_load_project demo_output)
                   (demo_UserStore_new "bob") demo_Authentication_new demo_Functions_new
                   None demo_world demo_world demo_world {| active_project := "demo" |}
                   "demo" demo_output eq_refl eq_refl _)
                demo_users (PyStr "login") (PyStr "https://example.test") _ "alice" _
                _ _ _ _ _ _); vm_compute; reflexivity.
Defined.

(** * Further properties of the methods *)

(** ** [write_session_file] *)

Section WriteSession.

Variable get_project_file : string -> string -> string.

(** X1.  [write_session_file] begins with [load_session_file]: when that
    raises, on a session file that does not read or evaluate, the
    exception comes out of [write_session_file] and the file is not opened
    for writing, so that every file is as it was. *)
Theorem write_session_file_load_raises (self self0 : Application) (w w0 : World)
    (e : PyExn) :
  load_session_file get_project_file (self, w) = Raises e (self0, w0) ->
  write_session_file get_project_file (self, w) = Raises e (self, w0)
  /\ files w0 = files w.
Proof.
  intros Hload.
  pose proof (load_session_file_self get_project_file self w self0 w0) as Hself.
  rewrite Hload in Hself. destruct (Hself eq_refl) as [-> Hfiles].
  split; [|exact Hfiles].
  unfold write_session_file. unfold bind at 1. by rewrite Hload.
Qed.

(** The session file that a store's instance wrote loads again. *)
Lemma load_session_file_written (self : Application) (w : World) :
  files w !! session_file get_project_file self = Some (session_text (users self)) ->
  load_session_file get_project_file (self, w)
  = Returns tt (self, loaded (users self) (loading w)).
Proof.
  intros Hfile. rewrite (load_session_file_present _ _ _ _ Hfile).
  by rewrite load_stream_session_text.
Qed.

(** X2.  [write_session_file] writes from the users of the instance alone:
    the session file holds the three expressions for the store, whatever
    it held before, and no other file changes.  After a write that
    returned, a second write returns as well (the file it wrote loads
    again) and leaves the same files. *)
Theorem write_session_file_repeated (self : Application) (w w0 : World) :
  load_session_file get_project_file (self, w) = Returns tt (self, w0) ->
  exists w1 w2,
    write_session_file get_project_file (self, w) = Returns tt (self, w1)
    /\ files w1
       = <[session_file get_project_file self := session_text (users self)]> (files w)
    /\ write_session_file get_project_file (self, w1) = Returns tt (self, w2)
    /\ files w2 = files w1.
Proof.
  intros Hload.
  destruct (write_session_file_returns _ _ _ _ Hload) as (w1 & Hwrite1 & Hfiles1 & _).
  assert (Hfile : files w1 !! session_file get_project_file self
                  = Some (session_text (users self))).
  { rewrite Hfiles1. apply lookup_insert_eq. }
  destruct (write_session_file_returns _ _ _ _ (load_session_file_written _ _ Hfile))
    as (w2 & Hwrite2 & Hfiles2 & _).
  exists w1, w2. repeat split; try assumption.
  rewrite Hfiles2, Hfiles1. apply insert_insert_eq.
Qed.

End WriteSession.

(** X3.  The loop of [write_session_file] over the users: each of the three
    mappings it builds has, for every username of the store, the mapping
    of that user, an empty one included, and has no entry for any other
    name; for a store without users the three are empty. *)
Theorem collect_sessions_entries (users : UserStore) (username : string) :
  (collect_sessions users).1.1 !! username = cookies <$> records users !! username
  /\ (collect_sessions users).1.2 !! username = headers <$> records users !! username
  /\ (collect_sessions users).2 !! username = data <$> records users !! username.
Proof.
  rewrite collect_sessions_spec. simpl. by rewrite !lookup_fmap.
Qed.

(** ** [load_session_file] *)

(** The forms that [hy.read] returned, in order. *)
Definition forms_read (evs : list Event) : list HyObject :=
  omap (fun ev => match ev with HyRead expr => Some expr | _ => None end) evs.


(** A session file whose expression has a dict for a key of a dict. *)
Definition unhashable_text : string :=
  "(setv _cookies {{} " +:+ hy_string "x" +:+ "})" +:+ newline.

Definition unhashable_world : World :=
  {| files := {[ "demo/_userdata.hy" := unhashable_text ]};
     selected_project := "demo"; events := [] |}.






Lemma read_eval_trace_truthy (tr : list Event) :
  read_eval_trace tr -> evaluated tr = List.filter hy_truthy (forms_read tr).
Proof.
  induction 1 as [|expr tr Htruthy _ IH|expr tr Htruthy _ IH]; simpl.
  - reflexivity.
  - by rewrite Htruthy.
  - rewrite Htruthy. by f_equal.
Qed.

(** X6.  The forms that a load gives to [hy.eval] are the truthy forms that
    [hy.read] returned to it, each once and in the order of the reading: a
    falsy form (an empty expression, an empty string) is read and dropped,
    and no truthy form is left out, also when the load ends by an
    exception. *)
Theorem load_session_file_evaluates_truthy
    (get_project_file : string -> string -> string)
    (self self' : Application) (w w' : World) :
  final_state (load_session_file get_project_file (self, w)) = Some (self', w') ->
  exists tr,
    events w' = (events w ++ tr)%list
    /\ evaluated tr = List.filter hy_truthy (forms_read tr).
Proof.
  destruct (files w !! session_file get_project_file self) as [text|] eqn:Hfile.
  - rewrite (load_session_file_present _ _ _ _ Hfile).
    destruct (load_stream text (∅, loading w)) as [a [ns1 w1]|e [ns1 w1]|] eqn:Hload;
      [| |done]; intros [= <- <-].
    all: pose proof (load_stream_trace text ∅ (loading w) ns1 w1) as Htrace;
      rewrite Hload in Htrace; destruct (Htrace eq_refl) as (_ & tr & Htr & Hev).
    all: apply read_eval_trace_truthy in Htr.
    all: destruct Hev as [Hev|Hev]; rewrite Hev; simpl; rewrite <- app_assoc;
      eexists; (split; [reflexivity|]).
    all: unfold evaluated, forms_read in *; simpl; rewrite ?omap_app; simpl;
      rewrite ?app_nil_r; exact Htr.
  - unfold session_file in Hfile.
    unfold load_session_file, bind, get_self, in_world, path_exists, gets.
    simpl. rewrite Hfile.
    rewrite bool_decide_eq_false_2 by (intros [? ?]; discriminate).
    intros [= <- <-]. simpl. rewrite <- app_assoc. eexists. split; reflexivity.
Qed.

(** X7.  An expression of the session file that reads well and raises when
    it is evaluated ends the load there: the exception of [hy.eval] comes
    out of [load_session_file] as it is, the [try] statement catching
    [EOFError] only, and no file is changed. *)
Theorem load_session_file_eval_raises (get_project_file : string -> string -> string)
    (self : Application) (w : World) (text text' rest : string)
    (ns' : gmap string PyValue) (expr : HyObject) (e : PyExn) :
  files w !! session_file get_project_file self = Some text ->
  session_steps text ∅ text' ns' ->
  hy_read text' = ReadForm expr rest ->
  hy_truthy expr = true ->
  hy_eval expr ns' = EvalRaise e ->
  exists w',
    load_session_file get_project_file (self, w)
    = (if is_EOFError e then Returns tt (self, w') else Raises e (self, w'))
    /\ files w' = files w.
Proof.
  intros Hfile Hsteps Hread Htruthy Heval.
  rewrite (load_session_file_present _ _ _ _ Hfile).
  unfold load_stream, try_except_EOFError.
  destruct (session_loop_steps _ _ _ _ Hsteps (loading w)) as (w1 & -> & Hfiles).
  assert (Hloop : session_loop (S (String.length text')) text' (ns', w1)
                  = Raises e (ns', turn expr w1)).
  { simpl. rewrite Hread, Htruthy. unfold bind. simpl. by rewrite Heval. }
  rewrite Hloop.
  destruct (is_EOFError e); simpl; eexists; split; try reflexivity; exact Hfiles.
Qed.

(** X7, witness: the expression of the file has a dict for a key, which is
    unhashable. *)
Lemma load_session_file_eval_raises_witness :
  exists w',
    load_session_file demo_get_project_file (demo_app fresh_store, unhashable_world)
    = Raises TypeError (demo_app fresh_store, w')
    /\ files w' = files unhashable_world.
Proof.
  eapply (load_session_file_eval_raises demo_get_project_file (demo_app fresh_store)
            unhashable_world unhashable_text unhashable_text _ ∅ _ TypeError).
  - reflexivity.
  - apply steps_here.
  - vm_compute. reflexivity.
  - reflexivity.
  - vm_compute. reflexivity.
Defined.

(** ** [authenticate] *)




(** ** [__init__] *)

Lemma select_project_returns (name : option string) (w : World) :
  exists n,
    select_project name w
    = Returns ({| active_project := n |}, n)
        (if opt_truthy str_truthy name then set_selected_project n w else w)
    /\ n = (if opt_truthy str_truthy name then default "" name else selected_project w).
Proof.
  exists (if opt_truthy str_truthy name then default "" name else selected_project w).
  split; [|reflexivity]. by destruct name as [[|c n]|].
Qed.

Section Init.

Variable load_project : Config -> option string -> Action World (gmap string PyValue).
Variable UserStore_new : PyValue -> Attempt UserStore.
Variable Authentication_new : PyValue -> Attempt Authentication.
Variable Functions_new : PyValue -> Attempt Functions.

(** X9.  On every instance that [__init__] built, [self.name] is the active
    project of [self.config].  It is the name that was given when that is
    not empty, and the project that was selected before otherwise: an
    empty name is taken as no name. *)
Theorem init_name_selected (project : option string) (w w' : World)
    (self : Application) :
  __init__ load_project UserStore_new Authentication_new Functions_new project w
  = Returns self w' ->
  name self = active_project (config self)
  /\ name self = (if opt_truthy str_truthy project
                  then default "" project else selected_project w).
Proof.
  destruct (select_project_returns project w) as (n & Hselect & Hn).
  intros Hinit.
  destruct (load_project {| active_project := n |} project
              (if opt_truthy str_truthy project then set_selected_project n w else w))
    as [output w2|e w2|] eqn:Houtput.
  - destruct (construct_returns_inv _ _ _ _ _ _ _ _ _ _ _ Hselect Houtput _ _ Hinit)
      as (_ & Hconfig & Hname & _).
    rewrite Hconfig, Hname. by split.
  - revert Hinit. unfold __init__, bind. by rewrite Hselect, Houtput.
  - revert Hinit. unfold __init__, bind. by rewrite Hselect, Houtput.
Qed.

Variables (project : option string) (w w1 w2 : World) (cfg : Config) (n : string)
          (output : gmap string PyValue).
Hypothesis Hselect : select_project project w = Returns (cfg, n) w1.
Hypothesis Houtput : load_project cfg project w1 = Returns output w2.

(** X10.  When the loaded configuration names, for the active user, a
    username that the store built from [_users] does not hold, [__init__]
    raises the lookup error of [self.users[active_user]]: it does not fall
    back to the store's default. *)
Theorem init_unknown_active_user (raw_users : PyValue) (store : UserStore) (u : string) :
  output !! "_users" = Some raw_users ->
  UserStore_new raw_users = Ok store ->
  output !! "_active_user" = Some (PyStr u) ->
  u <> "" ->
  records store !! u = None ->
  __init__ load_project UserStore_new Authentication_new Functions_new project w
  = Raises (KeyError u) w2.
Proof.
  intros Husers Hstore Hactive Hu Hlookup.
  unfold __init__, bind. rewrite Hselect, Houtput.
  unfold getitem, attempt, ret, raise. rewrite Husers, Hstore, Hactive.
  unfold resolve_active_user.
  destruct u as [|c u]; [done|]. simpl. by rewrite Hlookup.
Qed.

(** X11.  On an instance that [__init__] built, [self.functions] is set
    exactly when the loaded configuration has a truthy value for
    [_functions], and then to the object built from that value; a value
    that is there and falsy leaves the attribute as unset as a missing
    one, and reading it raises an [AttributeError]. *)
Theorem init_functions_attribute (self : Application) (w' : World) :
  __init__ load_project UserStore_new Authentication_new Functions_new project w
  = Returns self w' ->
  match output !! "_functions" with
  | Some raw =>
      if py_truthy raw
      then exists f, Functions_new raw = Ok f /\ getattr_functions self = Ok f
      else getattr_functions self = Fail (AttributeError "functions")
  | None => getattr_functions self = Fail (AttributeError "functions")
  end.
Proof.
  unfold __init__, bind. rewrite Hselect, Houtput.
  unfold getitem, attempt, ret, raise.
  destruct (output !! "_users") as [raw_users|]; [|done].
  destruct (UserStore_new raw_users) as [store|]; [|done].
  destruct (resolve_active_user store _) as [ref|]; [|done].
  destruct (output !! "_authentication") as [raw_auth|]; [|done].
  destruct (Authentication_new raw_auth) as [auth|]; [|done].
  destruct (output !! "_functions") as [raw_functions|].
  - destruct (py_truthy raw_functions).
    + destruct (Functions_new raw_functions) as [f|]; [|done].
      destruct (output !! "_base_url"); [|done].
      intros [= <- <-]. by exists f.
    + destruct (output !! "_base_url"); [|done]. by intros [= <- <-].
  - destruct (output !! "_base_url"); [|done]. by intros [= <- <-].
Qed.

End Init.

(** ** Examples for the further properties *)


(** A loaded configuration that names carol, whom the store does not hold,
    and one with a value for [_functions]. *)
Definition carol_output : gmap string PyValue :=
  <["_active_user" := PyStr "carol"]> demo_output.

Definition functions_output : gmap string PyValue :=
  <["_functions" := PyStr "flows"]> demo_output.

(** X1, witness: the session file of the example has a closing bracket too
    many. *)
Lemma write_session_file_load_raises_witness :
  exists w0,
    write_session_file demo_get_project_file (demo_app demo_store, broken_world)
    = Raises LexException (demo_app demo_store, w0)
    /\ files w0 = files broken_world.
Proof.
  eexists.
  eapply (write_session_file_load_raises demo_get_project_file (demo_app demo_store)
            (demo_app demo_store) broken_world _ LexException).
  vm_compute. reflexivity.
Defined.

(** X2, witness: two writes of the example store, where an older session
    file binds another name. *)
Lemma write_session_file_repeated_witness :
  exists w1 w2,
    write_session_file demo_get_project_file (demo_app demo_store, other_world)
    = Returns tt (demo_app demo_store, w1)
    /\ files w1
       = <[session_file demo_get_project_file (demo_app demo_store)
           := session_text demo_store]> (files other_world)
    /\ write_session_file demo_get_project_file (demo_app demo_store, w1)
       = Returns tt (demo_app demo_store, w2)
    /\ files w2 = files w1.
Proof.
  eapply (write_session_file_repeated demo_get_project_file (demo_app demo_store)
            other_world).
  vm_compute. reflexivity.
Defined.



(** X6, witness: the load of the session file of the example store. *)
Lemma load_session_file_evaluates_truthy_witness :
  exists tr,
    events (loaded demo_store (loading written_world))
    = (events written_world ++ tr)%list
    /\ evaluated tr = List.filter hy_truthy (forms_read tr).
Proof.
  apply (load_session_file_evaluates_truthy demo_get_project_file
           (demo_app fresh_store) (demo_app fresh_store) written_world).
  vm_compute. reflexivity.
Defined.

(** X9, witness: a construction with the name [shop] while [demo] was
    selected. *)
Lemma init_name_selected_witness :
  exists self w',
    __init__ (demo_load_project demo_output) (demo_UserStore_new "bob")
      demo_Authentication_new demo_Functions_new (Some "shop") demo_world
    = Returns self w'
    /\ name self = active_project (config self)
    /\ name self = "shop".
Proof.
  eexists _, _.
  assert (Hinit : __init__ (demo_load_project demo_output) (demo_UserStore_new "bob")
                    demo_Authentication_new demo_Functions_new (Some "shop") demo_world
                  = Returns
                      {| config := {| active_project := "shop" |}; name := "shop";
                         users := {| records := {[ "alice" := demo_user "alice" ∅;
                                                   "bob" := demo_user "bob" ∅ ]};
                                     active := "bob" |};
                         active_user := "alice";
                         authentication := {| flows := PyStr "login" |};
                         functions := None;
                         base_url := PyStr "https://example.test" |}
                      (set_selected_project "shop" demo_world)).
  { vm_compute. reflexivity. }
  split; [exact Hinit|].
  exact (init_name_selected _ _ _ _ _ _ _ _ Hinit).
Defined.

(** X10, witness: the configuration names carol. *)
Lemma init_unknown_active_user_witness :
  __init__ (demo_load_project carol_output) (demo_UserStore_new "bob")
    demo_Authentication_new demo_Functions_new None demo_world
  = Raises (KeyError "carol") demo_world.
Proof.
  apply (init_unknown_active_user (demo_load_project carol_output)
           (demo_UserStore_new "bob") demo_Authentication_new demo_Functions_new
           None demo_world demo_world demo_world {| active_project := "demo" |}
           "demo" carol_output eq_refl eq_refl demo_users
           {| records := {[ "alice" := demo_user "alice" ∅; "bob" := demo_user "bob" ∅ ]};
              active := "bob" |} "carol").
  - vm_compute. reflexivity.
  - vm_compute. reflexivity.
  - vm_compute. reflexivity.
  - discriminate.
  - vm_compute. reflexivity.
Defined.

(** X11, witness: the configuration has a value for [_functions]. *)
Lemma init_functions_attribute_witness :
  exists self w' f,
    __init__ (demo_load_project functions_output) (demo_UserStore_new "bob")
      demo_Authentication_new demo_Functions_new None demo_world
    = Returns self w'
    /\ demo_Functions_new (PyStr "flows") = Ok f
    /\ getattr_functions self = Ok f.
Proof.
  assert (Hinit : __init__ (demo_load_project functions_output)
                    (demo_UserStore_new "bob") demo_Authentication_new
                    demo_Functions_new None demo_world
                  = Returns
                      {| config := {| active_project := "demo" |}; name := "demo";
                         users := {| records := {[ "alice" := demo_user "alice" ∅;
                                                   "bob" := demo_user "bob" ∅ ]};
                                     active := "bob" |};
                         active_user := "alice";
                         authentication := {| flows := PyStr "login" |};
                         functions := Some {| function_flows := PyStr "flows" |};
                         base_url := PyStr "https://example.test" |}
                      demo_world).
  { vm_compute. reflexivity. }
  pose proof (init_functions_attribute (demo_load_project functions_output)
                (demo_UserStore_new "bob") demo_Authentication_new demo_Functions_new
                None demo_world demo_world demo_world {| active_project := "demo" |}
                "demo" functions_output eq_refl eq_refl _ _ Hinit) as Hf.
  assert (Hraw : functions_output !! "_functions" = Some (PyStr "flows"))
    by (vm_compute; reflexivity).
  rewrite Hraw in Hf. simpl in Hf. destruct Hf as (f & Hnew & Hget).
  eexists _, _, f. split; [exact Hinit|]. split; assumption.
Defined.
